(** * compare_ocr_models.py: the OCR runner and the comparison report

    A shallow embedding of [src/compare_ocr_models.py].  The script posts
    sample images to a local inference endpoint, one model after the other,
    saves each answer under a per-model directory and then renders one
    markdown report from the saved files.

    Conventions of the embedding:
    - a Python [str] is the list of its Unicode code points;
    - paths are POSIX [pathlib] paths, kept as the tuple [PurePath.parts];
    - the output tree is a finite map from paths to nodes (directory or
      regular text file); text files are read and written as on POSIX,
      with the default [newline=None] and strict UTF-8;
    - the image directory, the image bytes and the HTTP endpoint are the
      environment: they answer through the oracles of a [World], and the
      image directory is not touched by the script;
    - a function of the script returns the tree it leaves, the events it
      caused ([print] calls with their stream, and requests) and either
      its value or the exception that escaped it;
    - writing to the console and to the report file does not fail. *)

From Stdlib Require Import NArith ZArith Lia String Ascii.
From stdpp Require Import base option list gmap sets fin_maps.

Local Open Scope N_scope.

(** ** Python strings *)

Module PyStr.

(** A code point, and a [str] as the sequence of its code points. *)
Abbreviation char := N.
Abbreviation str := (list char).

(** Decoder used only to write the source's literals down as they appear
    in the script: the bytes of a UTF-8 literal to code points. *)
Fixpoint utf8_decode (bs : list N) : str :=
  match bs with
  | [] => []
  | b0 :: r0 =>
    if b0 <? 128 then b0 :: utf8_decode r0
    else
      match r0 with
      | [] => []
      | b1 :: r1 =>
        if b0 <? 224 then ((b0 - 192) * 64 + (b1 - 128)) :: utf8_decode r1
        else
          match r1 with
          | [] => []
          | b2 :: r2 =>
            if b0 <? 240
            then ((b0 - 224) * 4096 + (b1 - 128) * 64 + (b2 - 128))
                   :: utf8_decode r2
            else
              match r2 with
              | [] => []
              | b3 :: r3 =>
                ((b0 - 240) * 262144 + (b1 - 128) * 4096
                 + (b2 - 128) * 64 + (b3 - 128)) :: utf8_decode r3
              end
          end
      end
  end.

Fixpoint bytes_of_string (s : string) : list N :=
  match s with
  | EmptyString => []
  | String a r => N_of_ascii a :: bytes_of_string r
  end.

Definition lit (s : string) : str := utf8_decode (bytes_of_string s).

Definition LF : char := 10.
Definition CR : char := 13.

(** [str.isspace] on one code point: the characters CPython's
    [_PyUnicode_IsWhitespace] accepts. *)
Definition isspace (c : char) : bool :=
  ((9 <=? c) && (c <=? 13))
  || ((28 <=? c) && (c <=? 32))
  || (c =? 133) || (c =? 160) || (c =? 5760)
  || ((8192 <=? c) && (c <=? 8202))
  || (c =? 8232) || (c =? 8233) || (c =? 8239) || (c =? 8287)
  || (c =? 12288).

Fixpoint lstrip (s : str) : str :=
  match s with
  | [] => []
  | c :: r => if isspace c then lstrip r else s
  end.

Definition rstrip (s : str) : str := rev (lstrip (rev s)).

(** [s.strip()] *)
Definition strip (s : str) : str := rstrip (lstrip s).

(** [s.replace(a, b)] for one-character [a] and [b]. *)
Definition replace (a b : char) (s : str) : str :=
  map (fun c => if c =? a then b else c) s.

(** [s.lower()].  Only the ASCII range is folded: the result is compared
    with ASCII extensions only, and no character outside ASCII lowers to
    one of the letters j, p, e, g, n. *)
Definition lower_char (c : char) : char :=
  if (65 <=? c) && (c <=? 90) then c + 32 else c.
Definition lower (s : str) : str := map lower_char s.

(** [s.rfind(c)], [None] for Python's -1. *)
Fixpoint rfind (c : char) (s : str) : option nat :=
  match s with
  | [] => None
  | d :: r =>
    match rfind c r with
    | Some i => Some (S i)
    | None => if d =? c then Some O else None
    end
  end.

(** [l[:n]] for a Python int [n]: a negative bound counts from the end. *)
Definition slice_to {A} (l : list A) (n : Z) : list A :=
  if (0 <=? n)%Z then take (Z.to_nat n) l
  else take (length l - Z.to_nat (- n)) l.

(** The code points UTF-8 refuses to encode: the surrogates. *)
Definition is_surrogate (c : char) : bool := (55296 <=? c) && (c <=? 57343).

(** Text-mode reading with the default [newline=None]: "\r\n" and "\r"
    come back as "\n". *)
Fixpoint universal_newlines (s : str) : str :=
  match s with
  | [] => []
  | c :: r =>
    if c =? CR then
      match r with
      | d :: r' => if d =? LF then LF :: universal_newlines r'
                   else LF :: universal_newlines r
      | [] => [LF]
      end
    else c :: universal_newlines r
  end.

(** [base64.b64encode(data).decode("utf-8")] *)
Definition b64_char (n : N) : char :=
  if n <? 26 then 65 + n
  else if n <? 52 then 97 + (n - 26)
  else if n <? 62 then 48 + (n - 52)
  else if n =? 62 then 43 else 47.

Fixpoint b64encode (data : list N) : str :=
  match data with
  | [] => []
  | [a] => [b64_char (a / 4); b64_char ((a mod 4) * 16); 61; 61]
  | [a; b] =>
    [b64_char (a / 4); b64_char ((a mod 4) * 16 + b / 16);
     b64_char ((b mod 16) * 4); 61]
  | a :: b :: c :: r =>
    b64_char (a / 4) :: b64_char ((a mod 4) * 16 + b / 16)
      :: b64_char ((b mod 16) * 4 + c / 64) :: b64_char (c mod 64)
      :: b64encode r
  end.

End PyStr.
Export PyStr.

(** ** pathlib (POSIX flavour) *)

Module Pathlib.

(** A path is the tuple [PurePath.parts]; an absolute path starts with
    its root.  Keys are compared as written: symbolic links and ".."
    are not resolved. *)
Abbreviation Path := (list str).

Definition SLASH : char := 47.
Definition DOT : char := 46.

(** [s.split(c)] *)
Fixpoint split_on (c : char) (s : str) : list str :=
  match s with
  | [] => [[]]
  | d :: r =>
    match split_on c r with
    | [] => [[d]]
    | w :: ws => if d =? c then [] :: w :: ws else (d :: w) :: ws
    end
  end.

Definition str_eqb (a b : str) : bool := bool_decide (a = b).

(** The components pathlib keeps from a segment: empty ones and "." go. *)
Definition parse_parts (s : str) : list str :=
  List.filter (fun p => negb (str_eqb p []) && negb (str_eqb p [DOT]))
              (split_on SLASH s).

(** POSIX roots: "/" , and "//" for exactly two leading slashes. *)
Definition parse_root (s : str) : list str :=
  match s with
  | 47 :: 47 :: 47 :: _ => [[SLASH]]
  | 47 :: 47 :: _ => [[SLASH; SLASH]]
  | 47 :: _ => [[SLASH]]
  | _ => []
  end.

(** [Path(s)] *)
Definition Path_of (s : str) : Path := parse_root s ++ parse_parts s.

(** [p / s] *)
Definition joinpath (p : Path) (s : str) : Path :=
  match parse_root s with
  | [] => p ++ parse_parts s
  | _ => Path_of s
  end.

(** [p.name]: the final component, the root excluded. *)
Definition name (p : Path) : str :=
  match last p with
  | Some (47 :: _) => []
  | Some c => c
  | None => []
  end.

(** [p.suffix] and [p.stem] as CPython 3.8 to 3.13 compute them:
    [i = name.rfind('.')], and the name splits at [i] when
    [0 < i < len(name) - 1]. *)
Definition suffix_index (nm : str) : option nat :=
  match rfind DOT nm with
  | Some i => if bool_decide (0 < i < length nm - 1)%nat then Some i else None
  | None => None
  end.

Definition suffix (p : Path) : str :=
  match suffix_index (name p) with
  | Some i => drop i (name p)
  | None => []
  end.

Definition stem (p : Path) : str :=
  match suffix_index (name p) with
  | Some i => take i (name p)
  | None => name p
  end.

End Pathlib.
Export Pathlib.

(** ** Exceptions, JSON values and the environment *)

(** The exceptions the script can meet.  [RequestException] stands for
    the whole class [requests.exceptions.RequestException] and carries the
    text of [e.response] when there is one; [OtherException] is any other
    subclass of [Exception]. *)
Inductive exn :=
| FileNotFoundError
| NotADirectoryError
| FileExistsError
| IsADirectoryError (p : Path)
| AttributeError
| UnicodeEncodeError
| RequestException (body : option str)
| OtherException (text : str).

(** A computation that returns or raises. *)
Inductive exc (A : Type) :=
| Ok (a : A)
| Raise (e : exn).
Arguments Ok {A} a.
Arguments Raise {A} e.

Definition exc_bind {A B} (c : exc A) (k : A -> exc B) : exc B :=
  match c with
  | Ok a => k a
  | Raise e => Raise e
  end.

(** What [response.json()] returns. *)
#[local] Set Warnings "-register-all".
Inductive json :=
| JNull
| JBool (b : bool)
| JNumber (repr : str)
| JString (s : str)
| JArray (items : list json)
| JObject (members : list (str * json)).

(** [d.get(key, default)] on the dict [json.loads] builds: of two members
    with the same key the later one stays. *)
Fixpoint dict_get (key : str) (members : list (str * json)) (default : json) : json :=
  match members with
  | [] => default
  | (k, v) :: r => dict_get key r (if str_eqb k key then v else default)
  end.

(** [result.get(key, default)]: only a dict has [get]. *)
Definition json_get (result : json) (key : str) (default : json) : exc json :=
  match result with
  | JObject members => Ok (dict_get key members default)
  | _ => Raise AttributeError
  end.

(** [v.strip()]: only a [str] has [strip]. *)
Definition json_strip (v : json) : exc str :=
  match v with
  | JString s => Ok (strip s)
  | _ => Raise AttributeError
  end.

(** The JSON body of the request. *)
Record Payload := {
  payload_model : str;
  payload_prompt : str;
  payload_stream : bool;
  payload_images : list str
}.

(** The environment.  [post] stands for [requests.post], [raise_for_status]
    and [response.json()] together; it is asked with the image path too, so
    that two files with equal bytes can be answered differently. *)
Record World := {
  iterdir : Path -> exc (list Path);
  is_file : Path -> bool;
  read_bytes : Path -> exc (list N);
  post : Path -> str -> Payload -> exc json;
  exn_str : exn -> str
}.

(** ** The output tree *)

Inductive Node :=
| Dir
| File (content : str).

Abbreviation FS := (gmap Path Node).

(** The current directory and the roots are always there. *)
Definition anchor (p : Path) : bool :=
  match p with
  | [] => true
  | [47 :: _] => true
  | _ => false
  end.

Definition is_dir (fs : FS) (p : Path) : bool :=
  anchor p || match fs !! p with Some Dir => true | _ => false end.

(** [p.exists()] *)
Definition path_exists (fs : FS) (p : Path) : bool :=
  anchor p || match fs !! p with Some _ => true | None => false end.

(** [p.mkdir(parents=True, exist_ok=True)]: every missing ancestor and [p]
    become directories; a regular file in the way raises and nothing is
    created. *)
Fixpoint mkdir_from (done : Path) (rest : list str) (fs : FS) : exc FS :=
  match rest with
  | [] => Ok fs
  | c :: rest' =>
    let q := done ++ [c] in
    if anchor q then mkdir_from q rest' fs
    else
      match fs !! q with
      | Some (File _) =>
        Raise (match rest' with [] => FileExistsError | _ => NotADirectoryError end)
      | Some Dir => mkdir_from q rest' fs
      | None => mkdir_from q rest' (<[q := Dir]> fs)
      end
  end.

Definition mkdir_parents (fs : FS) (p : Path) : exc FS := mkdir_from [] p fs.

(** [p.parent] *)
Definition parent (p : Path) : Path :=
  if anchor p then p else take (length p - 1) p.

(** [open(p, "w", encoding="utf-8")]: the file is created or truncated. *)
Definition open_w (fs : FS) (p : Path) : exc FS :=
  if anchor p then Raise (IsADirectoryError p)
  else
    match fs !! p with
    | Some Dir => Raise (IsADirectoryError p)
    | _ =>
      if is_dir fs (parent p) then Ok (<[p := File []]> fs)
      else if path_exists fs (parent p) then Raise NotADirectoryError
      else Raise FileNotFoundError
    end.

(** [outfile.write(text)] on a file opened by [open_w], closed right after:
    UTF-8 refuses surrogates, and then the file stays as [open_w] left it. *)
Definition write_text (fs : FS) (p : Path) (text : str) : exc FS :=
  if existsb is_surrogate text then Raise UnicodeEncodeError
  else Ok (<[p := File text]> fs).

(** [open(p, "r", encoding="utf-8").read()] *)
Definition read_text (fs : FS) (p : Path) : exc str :=
  if anchor p then Raise (IsADirectoryError p)
  else
    match fs !! p with
    | Some (File content) => Ok (universal_newlines content)
    | Some Dir => Raise (IsADirectoryError p)
    | None => Raise FileNotFoundError
    end.

(** ** Console output and requests *)

Inductive Stream := Stdout | Stderr.

(** One constructor per [print] call of the script, with the values its
    f-string interpolates. *)
Inductive Msg :=
| NoImageFiles (image_dir : str)
| RunningModel (model_name : str)
| ImageNotFound (image_path : Path)
| ImageReadError (image_path : Path) (e : exn)
| RunningOnImage (model_name : str) (image_name : str)
| ResultSaved (image_name : str) (output_filename : Path)
| ApiError (model_name : str) (image_name : str) (e : exn)
| ResponseContent (text : str)
| UnexpectedError (image_name : str) (e : exn)
| GeneratingReport
| ReportGenerated (report_path : str).

(** What the script does to the outside, in order: its [print] calls and
    its calls of [requests.post]. *)
Inductive Event :=
| Printed (s : Stream) (m : Msg)
| Posted (image_path : Path) (url : str) (payload : Payload).

(** ** Constants of the script *)

Definition MODELS : list str :=
  [lit "yasserrmd/Nanonets-OCR-s:latest";
   lit "MedAIBase/PaddleOCR-VL:0.9b";
   lit "deepseek-ocr:latest"].

Definition IMAGE_DIRECTORY : str := lit "resources/receipts".
Definition BASE_OUTPUT_DIRECTORY : str := lit "result/ocr_outputs".
Definition COMPARISON_REPORT_PATH : str := lit "result/ollama_ocr_comparison_results.md".
Definition NUM_SAMPLE_IMAGES : Z := 3.

Definition URL : str := lit "http://localhost:11434/api/generate".
Definition PROMPT : str :=
  lit "Extract all text from this image. Provide only the extracted text.".
Definition IMAGE_SUFFIXES : list str := [lit ".jpeg"; lit ".jpg"; lit ".png"].

(** ** The runner: [run_ollama_ocr_integrated] *)

(** [model_name.replace('/', '_').replace(':', '_')] *)
Definition model_output_dir_name (model_name : str) : str :=
  replace 58 95 (replace 47 95 model_name).

(** [Path(base_output_dir) / model_output_dir_name] *)
Definition model_output_path (base_output_dir model_name : str) : Path :=
  joinpath (Path_of base_output_dir) (model_output_dir_name model_name).

(** [model_output_path / f"{stem}.txt"] *)
Definition output_file (out_dir : Path) (image_stem : str) : Path :=
  joinpath out_dir (image_stem ++ lit ".txt").

(** [f.is_file() and f.suffix.lower() in ['.jpeg', '.jpg', '.png']] *)
Definition is_image (w : World) (f : Path) : bool :=
  is_file w f && bool_decide (lower (suffix f) ∈ IMAGE_SUFFIXES).

(** Line 26: the comprehension over [Path(image_dir).iterdir()]. *)
Definition all_image_files (w : World) (image_dir : str) : exc (list Path) :=
  match iterdir w (Path_of image_dir) with
  | Ok entries => Ok (List.filter (is_image w) entries)
  | Raise e => Raise e
  end.

(** Line 28: [all_image_files[:int(num_sample_images)]]. *)
Definition sampled_image_files (w : World) (image_dir : str)
    (num_sample_images : Z) : exc (list Path) :=
  match all_image_files w image_dir with
  | Ok files => Ok (slice_to files num_sample_images)
  | Raise e => Raise e
  end.

Record RunState := {
  fs : FS;
  out : list Event;
  success_all : bool
}.

Definition record (ev : Event) (st : RunState) : RunState :=
  {| fs := fs st; out := out st ++ [ev]; success_all := success_all st |}.

Definition echo (s : Stream) (m : Msg) (st : RunState) : RunState :=
  record (Printed s m) st.

Definition set_failed (st : RunState) : RunState :=
  {| fs := fs st; out := out st; success_all := false |}.

Definition with_fs (fs' : FS) (st : RunState) : RunState :=
  {| fs := fs'; out := out st; success_all := success_all st |}.

(** Lines 51 to 56. *)
Definition make_payload (model_name image_data : str) : Payload :=
  {| payload_model := model_name;
     payload_prompt := PROMPT;
     payload_stream := false;
     payload_images := [image_data] |}.

(** Lines 63 and 64: [result.get("response", "").strip()]. *)
Definition response_text (result : json) : exc str :=
  exc_bind (json_get result (lit "response") (JString [])) json_strip.

(** Lines 60 to 68, the body of the second [try]: the request, the text of
    the answer and the write.  Returns the tree as the block leaves it and
    either the written file or the exception that ended the block. *)
Definition request_and_save (w : World) (out_dir image_path : Path)
    (payload : Payload) (fs0 : FS) : FS * exc Path :=
  match post w image_path URL payload with
  | Raise e => (fs0, Raise e)
  | Ok result =>
    match response_text result with
    | Raise e => (fs0, Raise e)
    | Ok ocr_text =>
      let output_filename := output_file out_dir (stem image_path) in
      match open_w fs0 output_filename with
      | Raise e => (fs0, Raise e)
      | Ok fs1 =>
        match write_text fs1 output_filename ocr_text with
        | Raise e => (fs1, Raise e)
        | Ok fs2 => (fs2, Ok output_filename)
        end
      end
    end
  end.

(** Lines 37 to 77: one turn of the loop. *)
Definition ocr_one (w : World) (model_name : str) (out_dir : Path)
    (st : RunState) (image_path : Path) : RunState :=
  match read_bytes w image_path with
  | Raise FileNotFoundError =>
    set_failed (echo Stderr (ImageNotFound image_path) st)
  | Raise e =>
    set_failed (echo Stderr (ImageReadError image_path e) st)
  | Ok bytes =>
    let image_data := b64encode bytes in
    let payload := make_payload model_name image_data in
    let st1 := echo Stdout (RunningOnImage model_name (name image_path)) st in
    let st2 := record (Posted image_path URL payload) st1 in
    match request_and_save w out_dir image_path payload (fs st2) with
    | (fs', Ok output_filename) =>
      echo Stdout (ResultSaved (name image_path) output_filename) (with_fs fs' st2)
    | (fs', Raise (RequestException response)) =>
      let e := RequestException response in
      let st3 := echo Stderr (ApiError model_name (name image_path) e) (with_fs fs' st2) in
      let st4 := match response with
                 | Some text => echo Stderr (ResponseContent text) st3
                 | None => st3
                 end in
      set_failed st4
    | (fs', Raise e) =>
      set_failed (echo Stderr (UnexpectedError (name image_path) e) (with_fs fs' st2))
    end
  end.

(** The result of a call: the tree and the events as the call leaves them,
    and the returned value or the exception that escaped. *)
Definition Outcome (A : Type) : Type := FS * list Event * exc A.

Definition run_ollama_ocr_integrated (w : World)
    (model_name image_dir base_output_dir : str) (num_sample_images : Z)
    (fs0 : FS) : Outcome bool :=
  let out_dir := model_output_path base_output_dir model_name in
  match mkdir_parents fs0 out_dir with
  | Raise e => (fs0, [], Raise e)
  | Ok fs1 =>
    match sampled_image_files w image_dir num_sample_images with
    | Raise e => (fs1, [], Raise e)
    | Ok [] => (fs1, [Printed Stderr (NoImageFiles image_dir)], Ok false)
    | Ok image_files =>
      let st := foldl (ocr_one w model_name out_dir)
                      {| fs := fs1;
                         out := [Printed Stdout (RunningModel model_name)];
                         success_all := true |}
                      image_files in
      (fs st, out st, Ok (success_all st))
    end
  end.

(** ** The report: [generate_comparison_report] *)

(** The report file [f] is the sequence of the arguments of its [f.write]
    calls; the text of the file is their concatenation.  Writing to the
    report is taken not to fail. *)
Definition Chunks := list str.

Definition nl (s : str) : str := s ++ [LF].

Definition TITLE : str := nl (nl (lit "### 📝 **Ollama OCR 모델 비교 결과**")).
Definition INTRO : str := nl (nl (lit "다양한 OCR 모델들의 성능을 비교했습니다.")).
Definition NO_SAMPLES : str :=
  nl (lit "No sample images processed to include in report.").
Definition STATUS_MISSING : str :=
  nl (nl (lit "**Status:** OCR run failed or output directory not found. 😞")).
Definition TEXT_LABEL : str := nl (lit "**추출된 텍스트:**").
Definition FENCE_OPEN : str := nl (lit "```").
Definition FENCE_CLOSE : str := LF :: nl (lit "```").
Definition TEXT_EMPTY : str := nl (lit "**추출된 텍스트:** (없음)").
Definition REVIEW : str :=
  nl (nl (lit "**평가:** 수동 검토 필요. 이 모델이 이 이미지에서 텍스트를 얼마나 잘 추출했는지 확인해주세요. 🤔")).
Definition TEXT_NO_FILE : str := nl (lit "**추출된 텍스트:** (파일 없음)").
Definition REVIEW_NO_FILE : str :=
  nl (nl (lit "**평가:** OCR 결과 파일을 찾을 수 없습니다. 모델이 이 이미지를 처리하지 못했거나 오류가 발생했을 수 있습니다. ❌")).
Definition RULE : str := nl (nl (lit "---")).
Definition SUMMARY_TITLE : str := nl (lit "**종합 요약:**").
Definition SUMMARY_BODY : str :=
  nl (lit "각 모델의 상세 평가는 위에 제시된 개별 이미지 결과와 함께 수동으로 진행되어야 합니다. "
      ++ lit "전반적인 성능은 추출된 텍스트의 양과 정확성을 바탕으로 판단할 수 있습니다. 🌟").

(** [f"#### **{model_name}** ✨\n"] *)
Definition section_header (model_name : str) : str :=
  nl (lit "#### **" ++ model_name ++ lit "** ✨").

(** [f"##### **이미지: {sample_image_stem}.jpeg/png**\n"] *)
Definition image_header (sample_image_stem : str) : str :=
  nl (lit "##### **이미지: " ++ sample_image_stem ++ lit ".jpeg/png**").

(** [f"**Error reading OCR output for {sample_image_stem}:** {e}\n\n"] *)
Definition read_error_line (w : World) (sample_image_stem : str) (e : exn) : str :=
  nl (nl (lit "**Error reading OCR output for " ++ sample_image_stem
          ++ lit ":** " ++ exn_str w e)).

(** Lines 88 to 95: the stems of the sampled images, collected by a loop of
    the report's own. *)
Definition collect_stems (w : World) (entries : list Path) : list str :=
  foldl (fun sample_images img_file =>
           if is_image w img_file then sample_images ++ [stem img_file]
           else sample_images)
        [] entries.

Definition report_sample_images (w : World) (image_dir : str)
    (num_sample_images : Z) : exc (list str) :=
  match iterdir w (Path_of image_dir) with
  | Ok entries => Ok (slice_to (collect_stems w entries) num_sample_images)
  | Raise e => Raise e
  end.

(** Lines 110 to 129: what one sampled image adds to the report. *)
Definition write_image_entry (w : World) (fs0 : FS) (out_dir : Path)
    (f : Chunks) (sample_image_stem : str) : Chunks :=
  let ocr_output_file := output_file out_dir sample_image_stem in
  let f := f ++ [image_header sample_image_stem] in
  if path_exists fs0 ocr_output_file then
    match read_text fs0 ocr_output_file with
    | Ok content =>
      let extracted_text := strip content in
      let f := match extracted_text with
               | _ :: _ => f ++ [TEXT_LABEL; FENCE_OPEN; extracted_text; FENCE_CLOSE]
               | [] => f ++ [TEXT_EMPTY]
               end in
      f ++ [REVIEW]
    | Raise e => f ++ [read_error_line w sample_image_stem e]
    end
  else f ++ [TEXT_NO_FILE; REVIEW_NO_FILE].

(** Lines 101 to 130: what one model adds to the report. *)
Definition write_model_section (w : World) (fs0 : FS) (base_output_dir : str)
    (sample_images : list str) (f : Chunks) (model_name : str) : Chunks :=
  let f := f ++ [section_header model_name] in
  let out_dir := model_output_path base_output_dir model_name in
  if negb (path_exists fs0 out_dir) then f ++ [STATUS_MISSING]
  else
    let f := foldl (write_image_entry w fs0 out_dir) f sample_images in
    f ++ [RULE].

(** Lines 84 to 134: everything written to the report, and whether the
    block ended by an exception. *)
Definition report_chunks (w : World) (models : list str)
    (base_output_dir image_dir : str) (num_sample_images : Z) (fs0 : FS)
    : Chunks * exc unit :=
  let f := [TITLE; INTRO] in
  match report_sample_images w image_dir num_sample_images with
  | Raise e => (f, Raise e)
  | Ok [] => (f ++ [NO_SAMPLES], Ok tt)
  | Ok sample_images =>
    let f := foldl (write_model_section w fs0 base_output_dir sample_images)
                   f models in
    (f ++ [SUMMARY_TITLE; SUMMARY_BODY], Ok tt)
  end.


(** The report is opened for writing before the outputs are read and is
    on disk with its whole text when the [with] block is left.  The last
    [print] is skipped by the early [return]. *)
Definition generate_comparison_report (w : World) (models : list str)
    (base_output_dir report_path image_dir : str) (num_sample_images : Z)
    (fs0 : FS) : Outcome unit :=
  let started := [Printed Stdout GeneratingReport] in
  match open_w fs0 (Path_of report_path) with
  | Raise e => (fs0, started, Raise e)
  | Ok fs1 =>
    let '(f, r) := report_chunks w models base_output_dir image_dir
                                 num_sample_images fs1 in
    let fs2 := <[Path_of report_path := File (concat f)]> fs1 in
    match r, report_sample_images w image_dir num_sample_images with
    | Ok _, Ok (_ :: _) =>
      (fs2, started ++ [Printed Stdout (ReportGenerated report_path)], Ok tt)
    | _, _ => (fs2, started, r)
    end
  end.

(** ** [main] *)

(** The loop over [MODELS]: the returned flags are dropped, an escaping
    exception ends the loop. *)
Fixpoint run_models (w : World) (models : list str)
    (image_dir base_output_dir : str) (num_sample_images : Z)
    (fs0 : FS) (out0 : list Event) : Outcome unit :=
  match models with
  | [] => (fs0, out0, Ok tt)
  | model :: rest =>
    match run_ollama_ocr_integrated w model image_dir base_output_dir
                                    num_sample_images fs0 with
    | (fs1, out1, Ok _) =>
      run_models w rest image_dir base_output_dir num_sample_images
                 fs1 (out0 ++ out1)
    | (fs1, out1, Raise e) => (fs1, out0 ++ out1, Raise e)
    end
  end.

Definition main (w : World) (fs0 : FS) : Outcome unit :=
  match mkdir_parents fs0 (Path_of BASE_OUTPUT_DIRECTORY) with
  | Raise e => (fs0, [], Raise e)
  | Ok fs1 =>
    match run_models w MODELS IMAGE_DIRECTORY BASE_OUTPUT_DIRECTORY
                     NUM_SAMPLE_IMAGES fs1 [] with
    | (fs2, out2, Raise e) => (fs2, out2, Raise e)
    | (fs2, out2, Ok _) =>
      match generate_comparison_report w MODELS BASE_OUTPUT_DIRECTORY
              COMPARISON_REPORT_PATH IMAGE_DIRECTORY NUM_SAMPLE_IMAGES fs2 with
      | (fs3, out3, r) => (fs3, out2 ++ out3, r)
      end
    end
  end.


(** * Vocabulary of the statements *)

(** A text whose first character, if any, is not white space. *)
Definition head_ok (s : str) : Prop :=
  match s with
  | [] => True
  | c :: _ => isspace c = false
  end.

(** A text whose last character, if any, is not white space. *)
Definition tail_ok (s : str) : Prop :=
  s = [] \/ exists u c, s = u ++ [c] /\ isspace c = false.

(** A text [strip] leaves alone. *)
Definition stripped (s : str) : Prop := head_ok s /\ tail_ok s.

(** The three parts of an [Outcome]. *)
Definition tree_of {A} (o : Outcome A) : FS := o.1.1.
Definition events_of {A} (o : Outcome A) : list Event := o.1.2.
Definition result_of {A} (o : Outcome A) : exc A := o.2.

(** Whether [open(p, "w")] goes through on a tree. *)
Definition can_open (fs0 : FS) (p : Path) : bool :=
  negb (anchor p)
  && negb (match fs0 !! p with Some Dir => true | _ => false end)
  && is_dir fs0 (parent p).

(** The text the runner is about to save for an image: the bytes are read,
    the request is answered, the answer has a text. *)
Definition answer (w : World) (model_name : str) (image_path : Path) : exc str :=
  match read_bytes w image_path with
  | Raise e => Raise e
  | Ok bytes =>
    match post w image_path URL (make_payload model_name (b64encode bytes)) with
    | Raise e => Raise e
    | Ok result => response_text result
    end
  end.

(** What one turn of the loop does to the output tree. *)
Inductive Verdict :=
| Saved (p : Path) (text : str)
| Emptied (p : Path)
| Untouched.

Definition verdict (w : World) (model_name : str) (out_dir : Path) (fs0 : FS)
    (image_path : Path) : Verdict :=
  match answer w model_name image_path with
  | Raise _ => Untouched
  | Ok text =>
    let p := output_file out_dir (stem image_path) in
    if can_open fs0 p
    then if existsb is_surrogate text then Emptied p else Saved p text
    else Untouched
  end.

Definition apply_verdict (v : Verdict) (fs0 : FS) : FS :=
  match v with
  | Saved p text => <[p := File text]> fs0
  | Emptied p => <[p := File []]> fs0
  | Untouched => fs0
  end.

Definition is_saved (v : Verdict) : bool :=
  match v with
  | Saved _ _ => true
  | _ => false
  end.

(** The path a verdict writes to, if any. *)
Definition target (v : Verdict) : option Path :=
  match v with
  | Saved p _ | Emptied p => Some p
  | Untouched => None
  end.

(** An image fails when its turn ends in one of the [except] branches. *)
Definition image_fails (w : World) (model_name : str) (out_dir : Path)
    (fs0 : FS) (image_path : Path) : bool :=
  negb (is_saved (verdict w model_name out_dir fs0 image_path)).

(** Two trees with the same directories. *)
Definition dirs_agree (fs0 fs1 : FS) : Prop :=
  forall p, fs0 !! p = Some Dir <-> fs1 !! p = Some Dir.

(** Reading a trace: the images the loop turned to, the images an error
    was printed for on standard error, the requests sent. *)
Definition visit_of (ev : Event) : option str :=
  match ev with
  | Printed _ (ImageNotFound p) => Some (name p)
  | Printed _ (ImageReadError p _) => Some (name p)
  | Printed _ (RunningOnImage _ n) => Some n
  | _ => None
  end.

Definition error_of (ev : Event) : option str :=
  match ev with
  | Printed Stderr (ImageNotFound p) => Some (name p)
  | Printed Stderr (ImageReadError p _) => Some (name p)
  | Printed Stderr (ApiError _ n _) => Some n
  | Printed Stderr (UnexpectedError n _) => Some n
  | _ => None
  end.

Definition request_of (ev : Event) : option (Path * str * Payload) :=
  match ev with
  | Posted p u pl => Some (p, u, pl)
  | _ => None
  end.

Definition visited (tr : list Event) : list str := omap visit_of tr.
Definition errors_logged (tr : list Event) : list str := omap error_of tr.
Definition requests (tr : list Event) : list (Path * str * Payload) := omap request_of tr.

(** The request the runner sends for a readable image. *)
Definition request_for (w : World) (model_name : str) (image_path : Path)
    : option (Path * str * Payload) :=
  match read_bytes w image_path with
  | Ok bytes => Some (image_path, URL, make_payload model_name (b64encode bytes))
  | Raise _ => None
  end.

(** What one image, and one model, add to an empty report. *)
Definition image_entry (w : World) (fs0 : FS) (out_dir : Path) (image_stem : str) : Chunks :=
  write_image_entry w fs0 out_dir [] image_stem.

Definition model_section (w : World) (fs0 : FS) (base_output_dir : str)
    (sample_images : list str) (model_name : str) : Chunks :=
  write_model_section w fs0 base_output_dir sample_images [] model_name.

(** [s] minus a leading [pre], if it starts with it. *)
Fixpoint drop_prefix (pre s : str) : option str :=
  match pre, s with
  | [], _ => Some s
  | a :: pre', b :: s' => if a =? b then drop_prefix pre' s' else None
  | _ :: _, [] => None
  end.

Definition drop_suffix (post s : str) : option str :=
  match drop_prefix (rev post) (rev s) with
  | Some r => Some (rev r)
  | None => None
  end.

Definition ends_with (s post : str) : bool :=
  match drop_suffix post s with Some _ => true | None => false end.


(** The closing summary paragraph. *)
Definition CLOSING : str := SUMMARY_TITLE ++ SUMMARY_BODY.

(** The tree after the loop went over [image_files]; the verdicts are taken
    on the tree the loop started from. *)
Definition apply_verdicts (w : World) (model_name : str) (out_dir : Path)
    (fs1 : FS) (image_files : list Path) (fs0 : FS) : FS :=
  foldl (fun f x => apply_verdict (verdict w model_name out_dir fs1 x) f)
        fs0 image_files.

#[global] Instance Node_eq_dec : EqDecision Node.
Proof. solve_decision. Defined.

Definition is_File (nd : Node) : bool :=
  match nd with
  | File _ => true
  | Dir => false
  end.

(** The regular files of [fs1] that [fs0] does not hold with the same
    content: what a call created or rewrote. *)
Definition written (fs0 fs1 : FS) : FS :=
  filter (fun kv => is_File kv.2 = true /\ fs0 !! kv.1 <> Some kv.2) fs1.

(** The images a call of the runner loops over; none when the directory
    cannot be listed. *)
Definition image_files_of (w : World) (image_dir : str) (num_sample_images : Z)
    : list Path :=
  match sampled_image_files w image_dir num_sample_images with
  | Ok l => l
  | Raise _ => []
  end.

(** * Staged environments

    Concrete worlds for the examples: a directory with a few entries, each
    with the bytes read from it and the answer of the endpoint. *)

Record Shot := {
  shot_name : str;
  shot_bytes : exc (list N);
  shot_reply : exc json
}.

Definition shot_named (shots : list Shot) (p : Path) : option Shot :=
  List.find (fun s => str_eqb (shot_name s) (name p)) shots.

Definition staged_world (dir : str) (shots : list Shot) : World :=
  {| iterdir := fun p =>
       if bool_decide (p = Path_of dir)
       then Ok (map (fun s => Path_of dir ++ [shot_name s]) shots)
       else Raise FileNotFoundError;
     is_file := fun _ => true;
     read_bytes := fun p =>
       match shot_named shots p with
       | Some s => shot_bytes s
       | None => Raise FileNotFoundError
       end;
     post := fun p _ _ =>
       match shot_named shots p with
       | Some s => shot_reply s
       | None => Raise (RequestException None)
       end;
     exn_str := fun _ => lit "error" |}.

(** An entry that is read and answered with the text [reply]. *)
Definition shot_text (nm reply : string) : Shot :=
  {| shot_name := lit nm;
     shot_bytes := Ok [137; 80; 78; 71];
     shot_reply := Ok (JObject [(lit "response", JString (lit reply))]) |}.


(** An entry whose request fails. *)
Definition shot_refused (nm : string) : Shot :=
  {| shot_name := lit nm;
     shot_bytes := Ok [137; 80; 78; 71];
     shot_reply := Raise (RequestException (Some (lit "model not found"))) |}.

(** An entry answered with the JSON value [body]. *)
Definition shot_json (nm : string) (body : json) : Shot :=
  {| shot_name := lit nm;
     shot_bytes := Ok [137; 80; 78; 71];
     shot_reply := Ok body |}.



(** Both replacements of the directory name at once. *)
Definition sanitize_char (c : char) : char :=
  if (c =? 47) || (c =? 58) then 95 else c.

(** Three staged directories. *)
Definition STAGE_DIR : str := lit "imgs".
Definition STAGE_OUT : str := lit "out".
Definition STAGE_MODEL : str := lit "org/ocr:v1".

Definition stage_plain : World :=
  staged_world STAGE_DIR
    [shot_text "r1.png" "TOTAL 12.50"; shot_text "r2.JPG" " MILK 2.10 ";
     shot_text "notes.txt" "skip"; shot_text "r3.jpeg" "TEA"].


Definition stage_five : World :=
  staged_world STAGE_DIR
    [shot_text "1.png" "one"; shot_text "2.png" "two"; shot_refused "3.png";
     shot_text "4.png" "four"; shot_text "5.png" "five"].

Definition stage_empty : World := staged_world STAGE_DIR [].

(** A directory whose only entries are no images. *)
Definition stage_no_images : World :=
  staged_world STAGE_DIR [shot_text "notes.txt" "skip"; shot_text "README" "skip"].









(** The directory of the staged model. *)
Definition STAGE_OUT_DIR : Path := model_output_path STAGE_OUT STAGE_MODEL.

(** The empty tree once the directory of the staged model is made. *)
Definition stage_tree : FS :=
  match mkdir_parents ∅ STAGE_OUT_DIR with
  | Ok t => t
  | Raise _ => ∅
  end.

(** A tree left by an earlier run: the output of "a" is already there. *)
Definition stale_tree : FS :=
  <[output_file STAGE_OUT_DIR (lit "a") := File (lit "OLD RECEIPT")]> stage_tree.


(** The section of a model whose directory is there. *)
Definition present_section (w : World) (fs0 : FS) (base_output_dir : str)
    (sample_images : list str) (model_name : str) : Chunks :=
  section_header model_name
  :: flat_map (image_entry w fs0 (model_output_path base_output_dir model_name))
              sample_images
  ++ [RULE].

(** An answer with a lone surrogate, which UTF-8 cannot encode. *)
Definition stage_surrogate : World :=
  staged_world STAGE_DIR
    [shot_json "s.png" (JObject [(lit "response", JString [120; 55296])])].

(** The directory of the script with two receipts in it. *)
Definition stage_receipts : World :=
  staged_world IMAGE_DIRECTORY
    [shot_text "r1.png" "TOTAL 12.50"; shot_refused "r2.jpg"].

(** * Further vocabulary *)

(** The node a verdict leaves at its target. *)
Definition verdict_node (v : Verdict) : option Node :=
  match v with
  | Saved _ text => Some (File text)
  | Emptied _ => Some (File [])
  | Untouched => None
  end.

(** What the loop leaves at one path [p] that held [o]: of the verdicts
    that point to [p] the last one decides. *)
Definition decide_at (w : World) (model_name : str) (out_dir : Path)
    (fs1 : FS) (image_files : list Path) (p : Path) (o : option Node)
    : option Node :=
  foldl (fun o x =>
           if decide (target (verdict w model_name out_dir fs1 x) = Some p)
           then verdict_node (verdict w model_name out_dir fs1 x)
           else o)
        o image_files.



(** A name that makes no path component of its own. *)
Definition trivial_name (s : str) : bool := str_eqb s [] || str_eqb s [DOT].

(** * Sanity checks of the embedding *)

Example lit_ascii : lit ".png" = [46; 112; 110; 103].
Proof. reflexivity. Qed.

Example lit_hangul : lit "없음" = [50630; 51020].
Proof. reflexivity. Qed.

Example lit_astral : lit "🌟" = [127775].
Proof. reflexivity. Qed.

Example strip_both : strip (lit "  a b ") = lit "a b".
Proof. reflexivity. Qed.

Example rfind_last : rfind 46 (lit "a.tar.gz") = Some 5%nat.
Proof. reflexivity. Qed.

Example slice_negative : slice_to [1; 2; 3; 4; 5] (-2) = [1; 2; 3].
Proof. reflexivity. Qed.

Example Path_of_base :
  Path_of (lit "result/ocr_outputs") = [lit "result"; lit "ocr_outputs"].
Proof. reflexivity. Qed.

Example Path_of_dotted : Path_of (lit "./a//b/") = [lit "a"; lit "b"].
Proof. reflexivity. Qed.

Example joinpath_plain :
  joinpath [lit "out"] (lit "deepseek-ocr_latest") = [lit "out"; lit "deepseek-ocr_latest"].
Proof. reflexivity. Qed.

Example joinpath_empty : joinpath [lit "out"] [] = [lit "out"].
Proof. reflexivity. Qed.

Example suffix_stem_jpg :
  suffix [lit "d"; lit "r1.JPG"] = lit ".JPG" /\ stem [lit "d"; lit "r1.JPG"] = lit "r1".
Proof. split; reflexivity. Qed.

Example suffix_hidden : suffix [lit ".png"] = [] /\ stem [lit ".png"] = lit ".png".
Proof. split; reflexivity. Qed.

Example suffix_double : suffix [lit "a.tar.gz"] = lit ".gz" /\ stem [lit "a.tar.gz"] = lit "a.tar".
Proof. split; reflexivity. Qed.

Example b64encode_full : b64encode (bytes_of_string "Man") = lit "TWFu".
Proof. reflexivity. Qed.

Example b64encode_padded : b64encode (bytes_of_string "Ma") = lit "TWE=".
Proof. reflexivity. Qed.

Example b64encode_padded2 : b64encode (bytes_of_string "M") = lit "TQ==".
Proof. reflexivity. Qed.

(** * Facts about the string operations *)

Section StrFacts.

Implicit Types (s t u : str) (c : char).

Lemma lstrip_head_ok s : head_ok (lstrip s).
Proof.
  induction s as [|c r IH]; simpl; [done|].
  destruct (isspace c) eqn:E; [done|]. exact E.
Qed.

Lemma lstrip_fix s : head_ok s -> lstrip s = s.
Proof. destruct s as [|c r]; simpl; [done|]. by intros ->. Qed.

Lemma lstrip_split s : exists v, s = v ++ lstrip s.
Proof.
  induction s as [|c r [v IH]]; simpl.
  - by exists [].
  - destruct (isspace c).
    + exists (c :: v). simpl. by f_equal.
    + by exists [].
Qed.

Lemma rstrip_split s : exists v, s = rstrip s ++ v.
Proof.
  unfold rstrip. destruct (lstrip_split (rev s)) as [v Hv].
  exists (rev v).
  rewrite <- rev_app_distr, <- Hv. by rewrite rev_involutive.
Qed.

Lemma head_ok_app_l s v : head_ok (s ++ v) -> head_ok s.
Proof. by destruct s. Qed.

Lemma rstrip_head_ok s : head_ok s -> head_ok (rstrip s).
Proof.
  intros H. destruct (rstrip_split s) as [v Hv].
  rewrite Hv in H. by apply head_ok_app_l in H.
Qed.

Lemma rstrip_fix s : tail_ok s -> rstrip s = s.
Proof.
  unfold rstrip. intros [-> | (u & c & -> & Hc)]; [done|].
  rewrite rev_app_distr. simpl. rewrite Hc.
  change (c :: rev u) with ([c] ++ rev u).
  rewrite rev_app_distr, rev_involutive. done.
Qed.

Lemma rstrip_tail_ok s : tail_ok (rstrip s).
Proof.
  unfold rstrip, tail_ok.
  pose proof (lstrip_head_ok (rev s)) as H.
  destruct (lstrip (rev s)) as [|c r]; [by left|].
  right. exists (rev r), c. split; [done | exact H].
Qed.

Lemma strip_stripped s : stripped (strip s).
Proof.
  split.
  - apply rstrip_head_ok, lstrip_head_ok.
  - apply rstrip_tail_ok.
Qed.

Lemma strip_fix s : stripped s -> strip s = s.
Proof.
  intros [Hh Ht]. unfold strip. rewrite (lstrip_fix s Hh). by apply rstrip_fix.
Qed.

(** Stripping twice is stripping once. *)
Lemma strip_idem s : strip (strip s) = strip s.
Proof. apply strip_fix, strip_stripped. Qed.

Lemma strip_nil : strip [] = [].
Proof. reflexivity. Qed.

Lemma isspace_CR : isspace CR = true.
Proof. reflexivity. Qed.

Lemma isspace_LF : isspace LF = true.
Proof. reflexivity. Qed.


Lemma universal_newlines_cons c s :
  c <> CR -> universal_newlines (c :: s) = c :: universal_newlines s.
Proof. intros H. simpl. by destruct (N.eqb_spec c CR). Qed.

Lemma universal_newlines_snoc_len n : forall u c,
  length u = n -> c <> CR -> c <> LF ->
  universal_newlines (u ++ [c]) = universal_newlines u ++ [c].
Proof.
  induction n as [n IH] using lt_wf_ind. intros u c Hn Hcr Hlf.
  destruct u as [|a r].
  - simpl. by destruct (N.eqb_spec c CR).
  - simpl in Hn.
    destruct (N.eqb_spec a CR) as [->|Ha].
    + destruct r as [|d r'].
      * simpl. destruct (N.eqb_spec c LF); [done|].
        by destruct (N.eqb_spec c CR).
      * simpl in Hn.
        change (universal_newlines ((CR :: d :: r') ++ [c]))
          with (if d =? LF then LF :: universal_newlines (r' ++ [c])
                else LF :: universal_newlines ((d :: r') ++ [c])).
        change (universal_newlines (CR :: d :: r'))
          with (if d =? LF then LF :: universal_newlines r'
                else LF :: universal_newlines (d :: r')).
        destruct (d =? LF).
        -- rewrite (IH (length r')); [done | lia | done..].
        -- rewrite (IH (length (d :: r'))); [done | simpl; lia | done..].
    + change ((a :: r) ++ [c]) with (a :: (r ++ [c])).
      rewrite !universal_newlines_cons by done.
      rewrite (IH (length r)); [done | lia | done..].
Qed.

Lemma universal_newlines_stripped s :
  stripped s -> stripped (universal_newlines s).
Proof.
  intros [Hh Ht]. split.
  - destruct s as [|c r]; [done|]. simpl in Hh.
    rewrite universal_newlines_cons.
    + exact Hh.
    + intros ->. by rewrite isspace_CR in Hh.
  - destruct Ht as [-> | (u & c & -> & Hc)]; [by left|].
    right. exists (universal_newlines u), c. split; [|done].
    apply (universal_newlines_snoc_len (length u)); [done|..].
    + intros ->. by rewrite isspace_CR in Hc.
    + intros ->. by rewrite isspace_LF in Hc.
Qed.

(** What the report reads back from a text the runner stripped. *)
Lemma strip_read_back s :
  strip (universal_newlines (strip s)) = universal_newlines (strip s).
Proof. apply strip_fix, universal_newlines_stripped, strip_stripped. Qed.

Lemma universal_newlines_nil_inv s : universal_newlines s = [] -> s = [].
Proof.
  destruct s as [|c r]; [done|]. simpl.
  destruct (c =? CR); [|done].
  destruct r as [|d r']; [done|]. by destruct (d =? LF).
Qed.

End StrFacts.

(** * Facts about the output tree *)

Section TreeFacts.

Implicit Types (p q : Path).

Lemma dirs_agree_refl (fs0 : FS) : dirs_agree fs0 fs0.
Proof. by intros p. Qed.

Lemma dirs_agree_trans (fs0 fs1 fs2 : FS) :
  dirs_agree fs0 fs1 -> dirs_agree fs1 fs2 -> dirs_agree fs0 fs2.
Proof. intros H1 H2 p. by rewrite (H1 p). Qed.

Lemma dirs_agree_sym (fs0 fs1 : FS) : dirs_agree fs0 fs1 -> dirs_agree fs1 fs0.
Proof. intros H p. by rewrite (H p). Qed.

(** A regular file put where no directory is leaves the directories. *)
Lemma dirs_agree_insert_file (fs0 : FS) p text :
  fs0 !! p <> Some Dir -> dirs_agree fs0 (<[p := File text]> fs0).
Proof.
  intros Hp q. destruct (decide (p = q)) as [<-|Hne].
  - rewrite lookup_insert_eq. split; [done | discriminate].
  - by rewrite lookup_insert_ne.
Qed.

Lemma is_dir_agree (fs0 fs1 : FS) p : dirs_agree fs0 fs1 -> is_dir fs0 p = is_dir fs1 p.
Proof.
  intros H. unfold is_dir. f_equal.
  pose proof (H p) as Hp.
  destruct (fs0 !! p) as [[|?]|] eqn:E0; destruct (fs1 !! p) as [[|?]|] eqn:E1;
    try done; (by destruct Hp as [H1 H2]; first [specialize (H1 eq_refl) | specialize (H2 eq_refl)]).
Qed.

Lemma can_open_agree (fs0 fs1 : FS) p :
  dirs_agree fs0 fs1 -> can_open fs0 p = can_open fs1 p.
Proof.
  intros H. unfold can_open. rewrite (is_dir_agree _ _ _ H). do 2 f_equal.
  pose proof (H p) as Hp.
  destruct (fs0 !! p) as [[|?]|] eqn:E0; destruct (fs1 !! p) as [[|?]|] eqn:E1;
    try done; (by destruct Hp as [H1 H2]; first [specialize (H1 eq_refl) | specialize (H2 eq_refl)]).
Qed.

Lemma can_open_not_dir (fs0 : FS) p : can_open fs0 p = true -> fs0 !! p <> Some Dir.
Proof.
  unfold can_open. intros H E. rewrite E in H.
  by rewrite andb_false_r in H.
Qed.

Lemma can_open_not_anchor (fs0 : FS) p : can_open fs0 p = true -> anchor p = false.
Proof. unfold can_open. by destruct (anchor p). Qed.

(** [open_w] goes through exactly when [can_open] says so. *)
Lemma open_w_ok (fs0 : FS) p :
  can_open fs0 p = true -> open_w fs0 p = Ok (<[p := File []]> fs0).
Proof.
  unfold can_open, open_w. destruct (anchor p); [done|]. simpl.
  destruct (fs0 !! p) as [[|?]|]; simpl; try done; by intros ->.
Qed.

Lemma open_w_raises (fs0 : FS) p :
  can_open fs0 p = false -> exists e, open_w fs0 p = Raise e.
Proof.
  unfold can_open, open_w. destruct (anchor p); [by eexists|]. simpl.
  destruct (fs0 !! p) as [[|?]|]; simpl; [by eexists|..];
    intros ->; destruct (path_exists fs0 (parent p)); by eexists.
Qed.

(** [mkdir_parents] leaves its target a directory. *)
Lemma mkdir_from_is_dir rest : forall done (fs0 fs1 : FS),
  mkdir_from done rest fs0 = Ok fs1 ->
  (rest = [] -> is_dir fs0 done = true) ->
  is_dir fs1 (done ++ rest) = true.
Proof.
  induction rest as [|c rest IH]; intros done fs0 fs1 H Hd.
  - simpl in H. injection H as <-. rewrite app_nil_r. by apply Hd.
  - simpl in H.
    replace (done ++ c :: rest) with ((done ++ [c]) ++ rest)
      by (by rewrite <- app_assoc).
    destruct (anchor (done ++ [c])) eqn:Ea.
    + apply (IH _ _ _ H). intros _. unfold is_dir. by rewrite Ea.
    + destruct (fs0 !! (done ++ [c])) as [[|?]|] eqn:E; [| done |].
      * apply (IH _ _ _ H). intros _. unfold is_dir. by rewrite E, orb_true_r.
      * apply (IH _ _ _ H). intros _. unfold is_dir.
        by rewrite lookup_insert_eq, orb_true_r.
Qed.

Lemma mkdir_parents_is_dir (fs0 fs1 : FS) p :
  mkdir_parents fs0 p = Ok fs1 -> is_dir fs1 p = true.
Proof.
  intros H. apply (mkdir_from_is_dir p [] fs0 fs1 H).
  intros _. reflexivity.
Qed.

(** It only adds directories, and only where nothing was. *)
Lemma mkdir_from_lookup rest : forall done (fs0 fs1 : FS) p,
  mkdir_from done rest fs0 = Ok fs1 ->
  fs1 !! p = fs0 !! p \/ (fs0 !! p = None /\ fs1 !! p = Some Dir).
Proof.
  induction rest as [|c rest IH]; intros done fs0 fs1 p H.
  - simpl in H. injection H as <-. by left.
  - simpl in H.
    destruct (anchor (done ++ [c])); [by apply (IH _ _ _ _ H)|].
    destruct (fs0 !! (done ++ [c])) as [[|?]|] eqn:E; [| done |].
    + by apply (IH _ _ _ _ H).
    + destruct (IH _ _ _ p H) as [H1 | [H1 H2]].
      * destruct (decide (done ++ [c] = p)) as [<-|Hne].
        -- right. split; [done|]. by rewrite H1, lookup_insert_eq.
        -- left. by rewrite H1, lookup_insert_ne.
      * destruct (decide (done ++ [c] = p)) as [<-|Hne].
        -- by rewrite lookup_insert_eq in H1.
        -- rewrite lookup_insert_ne in H1 by done. by right.
Qed.

Lemma mkdir_parents_lookup (fs0 fs1 : FS) p q :
  mkdir_parents fs0 p = Ok fs1 ->
  fs1 !! q = fs0 !! q \/ (fs0 !! q = None /\ fs1 !! q = Some Dir).
Proof. apply mkdir_from_lookup. Qed.

(** Regular files are as before. *)
Lemma mkdir_parents_files (fs0 fs1 : FS) p q text :
  mkdir_parents fs0 p = Ok fs1 ->
  fs1 !! q = Some (File text) <-> fs0 !! q = Some (File text).
Proof.
  intros H. destruct (mkdir_parents_lookup _ _ _ q H) as [-> | [H0 H1]]; [done|].
  rewrite H0, H1. split; discriminate.
Qed.

Lemma is_dir_exists (fs0 : FS) p : is_dir fs0 p = true -> path_exists fs0 p = true.
Proof.
  unfold is_dir, path_exists. destruct (anchor p); [done|]. simpl.
  by destruct (fs0 !! p) as [[|?]|].
Qed.

End TreeFacts.

(** * The loop of the runner *)

Section RunnerFacts.

Variable w : World.
Variable model_name : str.
Variable out_dir : Path.

Implicit Types (st : RunState) (x : Path) (l : list Path).

Local Abbreviation turn := (ocr_one w model_name out_dir).
Local Abbreviation vd := (verdict w model_name out_dir).

Lemma verdict_agree (fs0 fs1 : FS) x :
  dirs_agree fs0 fs1 -> vd fs0 x = vd fs1 x.
Proof.
  intros H. unfold verdict.
  destruct (answer w model_name x); [|done].
  by rewrite (can_open_agree _ _ _ H).
Qed.

Lemma verdict_target_can_open (fs0 : FS) x p :
  target (vd fs0 x) = Some p -> can_open fs0 p = true.
Proof.
  unfold verdict. destruct (answer w model_name x) as [t|]; [|done].
  destruct (can_open fs0 _) eqn:E; [|done].
  destruct (existsb is_surrogate t); simpl; by intros [= <-].
Qed.

Lemma verdict_target_path (fs0 : FS) x p :
  target (vd fs0 x) = Some p -> p = output_file out_dir (stem x).
Proof.
  unfold verdict. destruct (answer w model_name x) as [t|]; [|done].
  destruct (can_open fs0 _); [|done].
  destruct (existsb is_surrogate t); simpl; by intros [= <-].
Qed.

Lemma apply_verdict_agree (fs0 fs1 : FS) x :
  dirs_agree fs0 fs1 -> dirs_agree fs1 (apply_verdict (vd fs0 x) fs1).
Proof.
  intros H.
  destruct (vd fs0 x) as [p t|p|] eqn:E; simpl; [| |apply dirs_agree_refl].
  - apply dirs_agree_insert_file, can_open_not_dir.
    rewrite <- (can_open_agree _ _ _ H).
    apply (verdict_target_can_open fs0 x). by rewrite E.
  - apply dirs_agree_insert_file, can_open_not_dir.
    rewrite <- (can_open_agree _ _ _ H).
    apply (verdict_target_can_open fs0 x). by rewrite E.
Qed.

(** One turn, seen from outside: the tree, the flag and the trace. *)
Lemma ocr_one_spec st x :
  fs (turn st x) = apply_verdict (vd (fs st) x) (fs st)
  /\ success_all (turn st x) = success_all st && is_saved (vd (fs st) x)
  /\ visited (out (turn st x)) = visited (out st) ++ [name x]
  /\ errors_logged (out (turn st x))
     = errors_logged (out st)
       ++ (if image_fails w model_name out_dir (fs st) x then [name x] else [])
  /\ requests (out (turn st x))
     = requests (out st) ++ option_list (request_for w model_name x).
Proof.
  unfold ocr_one, image_fails, verdict, answer, request_for, request_and_save.
  destruct (read_bytes w x) as [bytes|e].
  2:{ destruct e; simpl; unfold visited, errors_logged, requests;
      rewrite !omap_app; simpl; rewrite ?app_nil_r, ?andb_false_r; done. }
  simpl.
  destruct (post w x URL _) as [result|e].
  2:{ destruct e as [| | | | | |[?|]|]; simpl;
      unfold visited, errors_logged, requests;
      rewrite !omap_app; simpl; rewrite ?app_nil_r, ?andb_false_r, <- ?app_assoc; done. }
  destruct (response_text result) as [t|e].
  2:{ destruct e as [| | | | | |[?|]|]; simpl;
      unfold visited, errors_logged, requests;
      rewrite !omap_app; simpl; rewrite ?app_nil_r, ?andb_false_r, <- ?app_assoc; done. }
  destruct (can_open (fs st) (output_file out_dir (stem x))) eqn:Eo.
  - rewrite (open_w_ok _ _ Eo). unfold write_text.
    destruct (existsb is_surrogate t); simpl;
      unfold visited, errors_logged, requests;
      rewrite !omap_app; simpl;
      rewrite ?app_nil_r, ?andb_false_r, ?andb_true_r, <- ?app_assoc,
              ?insert_insert_eq; done.
  - destruct (open_w_raises _ _ Eo) as [e ->].
    destruct e as [| | | | | |[?|]|]; simpl;
      unfold visited, errors_logged, requests;
      rewrite !omap_app; simpl; rewrite ?app_nil_r, ?andb_false_r, <- ?app_assoc; done.
Qed.

(** The whole loop.  A failing turn changes neither the list of images
    still to come nor the trace of the turns before it. *)
Lemma loop_spec (fs1 : FS) l : forall st,
  dirs_agree fs1 (fs st) ->
  let st' := foldl turn st l in
  fs st' = apply_verdicts w model_name out_dir fs1 l (fs st)
  /\ dirs_agree fs1 (fs st')
  /\ success_all st' = success_all st && forallb (fun x => is_saved (vd fs1 x)) l
  /\ visited (out st') = visited (out st) ++ map name l
  /\ errors_logged (out st')
     = errors_logged (out st)
       ++ map name (List.filter (image_fails w model_name out_dir fs1) l)
  /\ requests (out st') = requests (out st) ++ omap (request_for w model_name) l.
Proof.
  induction l as [|x l IH]; intros st Hag; simpl.
  - rewrite !app_nil_r, andb_true_r. done.
  - destruct (ocr_one_spec st x) as (Hfs & Hflag & Hvis & Herr & Hreq).
    assert (Hv : vd (fs st) x = vd fs1 x) by (symmetry; by apply verdict_agree).
    assert (Hag' : dirs_agree fs1 (fs (turn st x))).
    { rewrite Hfs. eapply dirs_agree_trans; [exact Hag|].
      rewrite Hv. by apply apply_verdict_agree. }
    destruct (IH (turn st x) Hag') as (IH1 & IH2 & IH3 & IH4 & IH5 & IH6).
    unfold apply_verdicts in *. simpl.
    split; [by rewrite IH1, Hfs, Hv|].
    split; [exact IH2|].
    split; [by rewrite IH3, Hflag, Hv, andb_assoc|].
    split; [by rewrite IH4, Hvis, <- app_assoc|].
    split.
    + rewrite IH5, Herr. unfold image_fails at 1. rewrite Hv.
      fold (image_fails w model_name out_dir fs1 x).
      destruct (image_fails w model_name out_dir fs1 x); simpl;
        by rewrite <- app_assoc.
    + rewrite IH6, Hreq.
      destruct (request_for w model_name x); simpl; by rewrite <- app_assoc.
Qed.

(** Where the verdicts do not point, the tree stays. *)
Lemma apply_verdicts_other (fs1 : FS) l : forall (fs0 : FS) p,
  (forall x, x ∈ l -> target (vd fs1 x) <> Some p) ->
  apply_verdicts w model_name out_dir fs1 l fs0 !! p = fs0 !! p.
Proof.
  unfold apply_verdicts.
  induction l as [|x l IH]; intros fs0 p H; simpl; [done|].
  rewrite IH by (intros y Hy; apply H; by right).
  assert (Hx : target (vd fs1 x) <> Some p) by (apply H; by left).
  destruct (vd fs1 x) as [q t|q|]; simpl in *; [| |done];
    rewrite lookup_insert_ne; congruence.
Qed.

(** The last verdict on a path decides what is there. *)
Lemma apply_verdicts_last (fs1 : FS) l1 x l2 (fs0 : FS) p :
  target (vd fs1 x) = Some p ->
  (forall y, y ∈ l2 -> target (vd fs1 y) <> Some p) ->
  apply_verdicts w model_name out_dir fs1 (l1 ++ x :: l2) fs0 !! p
  = apply_verdict (vd fs1 x) fs0 !! p.
Proof.
  intros Hx H2. unfold apply_verdicts. rewrite foldl_app. simpl.
  fold (apply_verdicts w model_name out_dir fs1 l1 fs0).
  fold (apply_verdicts w model_name out_dir fs1 l2
          (apply_verdict (vd fs1 x) (apply_verdicts w model_name out_dir fs1 l1 fs0))).
  rewrite apply_verdicts_other by done.
  destruct (vd fs1 x) as [q t|q|]; simpl in *; [| |done];
    injection Hx as ->; by rewrite !lookup_insert_eq.
Qed.


End RunnerFacts.

(** * The sample list *)

Section SampleFacts.

Lemma slice_to_map {A B} (f : A -> B) (l : list A) (n : Z) :
  slice_to (map f l) n = map f (slice_to l n).
Proof.
  unfold slice_to. rewrite length_map.
  destruct (0 <=? n)%Z; apply firstn_map.
Qed.

(** For a count that is not negative the slice is the first
    [min(len, n)] elements. *)
Lemma slice_to_nat {A} (l : list A) (n : nat) :
  slice_to l (Z.of_nat n) = take (Nat.min (length l) n) l.
Proof.
  unfold slice_to.
  destruct (Z.leb_spec 0 (Z.of_nat n)) as [_|H]; [|lia].
  rewrite Nat2Z.id.
  destruct (Nat.le_gt_cases (length l) n) as [Hle|Hgt].
  - rewrite Nat.min_l by done. by rewrite firstn_all, take_ge.
  - rewrite Nat.min_r by lia. done.
Qed.

Lemma slice_to_length_nat {A} (l : list A) (n : nat) :
  length (slice_to l (Z.of_nat n)) = Nat.min (length l) n.
Proof. rewrite slice_to_nat, length_take. lia. Qed.

(** For a negative count the last [-n] elements are left out. *)
Lemma slice_to_neg {A} (l : list A) (n : Z) :
  (n < 0)%Z -> slice_to l n = take (length l - Z.to_nat (- n)) l.
Proof.
  intros H. unfold slice_to. by destruct (Z.leb_spec 0 n); [lia|].
Qed.

Variable w : World.

Lemma collect_stems_from (entries : list Path) : forall acc,
  foldl (fun sample_images img_file =>
           if is_image w img_file then sample_images ++ [stem img_file]
           else sample_images)
        acc entries
  = acc ++ map stem (List.filter (is_image w) entries).
Proof.
  induction entries as [|e entries IH]; intros acc; simpl.
  - by rewrite app_nil_r.
  - rewrite IH. destruct (is_image w e); simpl; [|done].
    by rewrite <- app_assoc.
Qed.

(** The report's loop collects the stems of the files the runner's
    comprehension keeps, in the same order. *)
Lemma collect_stems_filter (entries : list Path) :
  collect_stems w entries = map stem (List.filter (is_image w) entries).
Proof. unfold collect_stems. by rewrite collect_stems_from. Qed.

End SampleFacts.

(** * The runner as a whole *)

Section RunFacts.

Variable w : World.
Variables model_name image_dir base_output_dir : str.
Variable num_sample_images : Z.

Local Abbreviation out_dir := (model_output_path base_output_dir model_name).
Local Abbreviation run :=
  (run_ollama_ocr_integrated w model_name image_dir base_output_dir
                             num_sample_images).

Lemma run_mkdir_raises (fs0 : FS) e :
  mkdir_parents fs0 out_dir = Raise e -> run fs0 = (fs0, [], Raise e).
Proof. intros H. unfold run_ollama_ocr_integrated. by rewrite H. Qed.

Lemma run_listing_raises (fs0 fs1 : FS) e :
  mkdir_parents fs0 out_dir = Ok fs1 ->
  sampled_image_files w image_dir num_sample_images = Raise e ->
  run fs0 = (fs1, [], Raise e).
Proof. intros H1 H2. unfold run_ollama_ocr_integrated. by rewrite H1, H2. Qed.

(** Once the directory is made and listed the call returns, and the
    loop has gone over every sampled image. *)
Lemma run_spec (fs0 fs1 : FS) (l : list Path) :
  mkdir_parents fs0 out_dir = Ok fs1 ->
  sampled_image_files w image_dir num_sample_images = Ok l ->
  tree_of (run fs0) = apply_verdicts w model_name out_dir fs1 l fs1
  /\ dirs_agree fs1 (tree_of (run fs0))
  /\ result_of (run fs0)
     = Ok (match l with [] => false | _ => true end
           && forallb (fun x => is_saved (verdict w model_name out_dir fs1 x)) l)
  /\ visited (events_of (run fs0)) = map name l
  /\ errors_logged (events_of (run fs0))
     = map name (List.filter (image_fails w model_name out_dir fs1) l)
  /\ requests (events_of (run fs0)) = omap (request_for w model_name) l.
Proof.
  intros H1 H2. unfold run_ollama_ocr_integrated. rewrite H1, H2.
  destruct l as [|x l].
  - unfold tree_of, events_of, result_of; simpl.
    repeat (split; [done || apply dirs_agree_refl|]). done.
  - set (st0 := {| fs := fs1;
                   out := [Printed Stdout (RunningModel model_name)];
                   success_all := true |}).
    destruct (loop_spec w model_name out_dir fs1 (x :: l) st0
                (dirs_agree_refl fs1))
      as (L1 & L2 & L3 & L4 & L5 & L6).
    unfold tree_of, events_of, result_of.
    cbn [fst snd].
    split; [exact L1|]. split; [exact L2|].
    split; [by rewrite L3|]. split; [by rewrite L4|].
    split; [by rewrite L5 | by rewrite L6].
Qed.

End RunFacts.

(** * Properties of the sample list and the runner *)

(** C2.  The sample list of the runner (filter to .jpeg/.jpg/.png files,
    then truncate) and the sample list the report generator computes on
    its own agree: the stems the report iterates are, in order, the stems
    of the files the runner loops over, the directory being enumerated the
    same way by both calls.  When the directory cannot be listed both
    calls raise the same exception. *)
Theorem sample_lists_agree (w : World) (image_dir : str) (num_sample_images : Z) :
  report_sample_images w image_dir num_sample_images
  = match sampled_image_files w image_dir num_sample_images with
    | Ok image_files => Ok (map stem image_files)
    | Raise e => Raise e
    end.
Proof.
  unfold report_sample_images, sampled_image_files, all_image_files.
  destruct (iterdir w (Path_of image_dir)) as [entries|e]; [|done].
  by rewrite collect_stems_filter, slice_to_map.
Qed.

Example sample_lists_agree_staged :
  sampled_image_files stage_plain STAGE_DIR 2
  = Ok [[lit "imgs"; lit "r1.png"]; [lit "imgs"; lit "r2.JPG"]]
  /\ report_sample_images stage_plain STAGE_DIR 2 = Ok [lit "r1"; lit "r2"].
Proof. split; reflexivity. Qed.

Section RunnerProperties.

Variable w : World.
Variables model_name image_dir base_output_dir : str.

Local Abbreviation out_dir := (model_output_path base_output_dir model_name).

(** What makes an image fail: no text to save, or a file that cannot be
    opened or encoded. *)
Lemma image_fails_iff (fs1 : FS) (x : Path) :
  image_fails w model_name out_dir fs1 x = true
  <-> (exists e, answer w model_name x = Raise e)
      \/ (exists text, answer w model_name x = Ok text
            /\ (can_open fs1 (output_file out_dir (stem x)) = false
                \/ existsb is_surrogate text = true)).
Proof.
  unfold image_fails, verdict.
  destruct (answer w model_name x) as [text|e].
  - destruct (can_open fs1 _) eqn:Ec;
      destruct (existsb is_surrogate text) eqn:Es; simpl;
      (split; [intros H | intros [[e He]|(t & Ht & [Hc|Hs])]]);
      try done;
      try (right; exists text; split; [done|]; by auto);
      simplify_eq; congruence.
  - split; [|done]. intros _. left. by exists e.
Qed.



End RunnerProperties.


Example runner_goes_on_after_failure :
  let o := run_ollama_ocr_integrated stage_five STAGE_MODEL STAGE_DIR STAGE_OUT 5 ∅ in
  visited (events_of o)
  = [lit "1.png"; lit "2.png"; lit "3.png"; lit "4.png"; lit "5.png"]
  /\ errors_logged (events_of o) = [lit "3.png"]
  /\ result_of o = Ok false.
Proof. vm_compute. done. Qed.


(** The example of the specification: five images and a sample count of
    three make three turns of the loop. *)
Example five_images_three_processed :
  all_image_files stage_five STAGE_DIR
  = Ok (map (fun s => [lit "imgs"; lit s]) ["1.png"; "2.png"; "3.png"; "4.png"; "5.png"]%string)
  /\ visited (events_of (run_ollama_ocr_integrated stage_five STAGE_MODEL
                           STAGE_DIR STAGE_OUT 3 ∅))
     = [lit "1.png"; lit "2.png"; lit "3.png"].
Proof. vm_compute. done. Qed.


(** * The output paths *)

Section PathFacts.

Implicit Types (s : str) (p : Path).

Lemma model_output_dir_name_chars (model_name : str) :
  model_output_dir_name model_name = map sanitize_char model_name.
Proof.
  unfold model_output_dir_name, replace. rewrite map_map.
  apply map_ext. intros c. unfold sanitize_char.
  destruct (N.eqb_spec c 47) as [->|H47]; [done|].
  by destruct (N.eqb_spec c 58).
Qed.

(** No separator is left in the directory name. *)
Lemma model_output_dir_name_clean (model_name : str) :
  (SLASH ∉ model_output_dir_name model_name)
  /\ (58 ∉ model_output_dir_name model_name).
Proof.
  rewrite model_output_dir_name_chars.
  induction model_name as [|c r [IH1 IH2]]; simpl.
  - split; apply not_elem_of_nil.
  - split; apply not_elem_of_cons; (split; [|done]); unfold sanitize_char, SLASH;
      destruct (N.eqb_spec c 47) as [->|?]; simpl; try done;
      destruct (N.eqb_spec c 58) as [->|?]; simpl; done.
Qed.

Lemma split_on_plain s : SLASH ∉ s -> split_on SLASH s = [s].
Proof.
  induction s as [|c r IH]; [done|].
  intros H. apply not_elem_of_cons in H as [Hc Hr].
  simpl. rewrite (IH Hr). by destruct (N.eqb_spec c SLASH).
Qed.

Lemma parse_root_plain s : SLASH ∉ s -> parse_root s = [].
Proof.
  destruct s as [|c r]; [done|]. intros H.
  apply not_elem_of_cons in H as [Hc _]. unfold SLASH in Hc.
  unfold parse_root.
  destruct c as [|q]; [done|].
  repeat (destruct q as [q|q|]; try done).
Qed.

(** Joining a plain name appends one component. *)
Lemma joinpath_single p s :
  SLASH ∉ s -> s <> [] -> s <> [DOT] -> joinpath p s = p ++ [s].
Proof.
  intros Hs Hne Hdot. unfold joinpath, parse_parts.
  rewrite (parse_root_plain s Hs), (split_on_plain s Hs). simpl.
  unfold str_eqb. rewrite !bool_decide_eq_false_2 by done. done.
Qed.

Lemma txt_name_plain s :
  SLASH ∉ s ->
  (SLASH ∉ s ++ lit ".txt") /\ s ++ lit ".txt" <> [] /\ s ++ lit ".txt" <> [DOT].
Proof.
  intros H. split; [|split].
  - intros Hin. apply elem_of_app in Hin as [Hin|Hin]; [done|].
    vm_compute in Hin. by repeat (apply elem_of_cons in Hin as [?|Hin]; [done|]);
      apply elem_of_nil in Hin.
  - by destruct s.
  - destruct s as [|c [|d r]]; done.
Qed.

(** [<base>/<sanitized-model>/<image-stem>.txt] *)
Lemma output_file_shape (base_output_dir model_name image_stem : str) :
  model_output_dir_name model_name <> [] ->
  model_output_dir_name model_name <> [DOT] ->
  SLASH ∉ image_stem ->
  output_file (model_output_path base_output_dir model_name) image_stem
  = Path_of base_output_dir
    ++ [model_output_dir_name model_name; image_stem ++ lit ".txt"].
Proof.
  intros H1 H2 H3. unfold output_file, model_output_path.
  destruct (txt_name_plain image_stem H3) as (Ha & Hb & Hc).
  rewrite (joinpath_single _ (image_stem ++ lit ".txt")) by done.
  rewrite joinpath_single; [by rewrite <- app_assoc | | done | done].
  apply model_output_dir_name_clean.
Qed.


End PathFacts.


Example one_output_file_per_image_staged :
  let o := run_ollama_ocr_integrated stage_plain STAGE_MODEL STAGE_DIR STAGE_OUT 3 ∅ in
  size (written ∅ (tree_of o)) = 3%nat
  /\ tree_of o !! [lit "out"; lit "org_ocr_v1"; lit "r1.txt"]
     = Some (File (lit "TOTAL 12.50"))
  /\ tree_of o !! [lit "out"; lit "org_ocr_v1"; lit "r2.txt"]
     = Some (File (lit "MILK 2.10"))
  /\ tree_of o !! [lit "out"; lit "org_ocr_v1"; lit "r3.txt"]
     = Some (File (lit "TEA")).
Proof. vm_compute. done. Qed.

(** * The report *)

Section ReportFacts.

Variable w : World.

Implicit Types (f : Chunks) (s m : str) (d : Path).

(** One entry, branch by branch. *)
Lemma image_entry_cases (fs0 : FS) d s :
  image_entry w fs0 d s
  = image_header s
    :: (if path_exists fs0 (output_file d s) then
          match read_text fs0 (output_file d s) with
          | Ok content =>
            match strip content with
            | [] => [TEXT_EMPTY; REVIEW]
            | c :: t => [TEXT_LABEL; FENCE_OPEN; c :: t; FENCE_CLOSE; REVIEW]
            end
          | Raise e => [read_error_line w s e]
          end
        else [TEXT_NO_FILE; REVIEW_NO_FILE]).
Proof.
  unfold image_entry, write_image_entry.
  destruct (path_exists fs0 (output_file d s)); [|done].
  destruct (read_text fs0 (output_file d s)) as [content|e]; [|done].
  by destruct (strip content).
Qed.

Lemma write_image_entry_app (fs0 : FS) d f s :
  write_image_entry w fs0 d f s = f ++ image_entry w fs0 d s.
Proof.
  unfold image_entry, write_image_entry.
  destruct (path_exists fs0 (output_file d s)).
  - destruct (read_text fs0 (output_file d s)) as [content|e].
    + destruct (strip content); simpl; by rewrite <- !app_assoc.
    + simpl. by rewrite <- !app_assoc.
  - simpl. by rewrite <- !app_assoc.
Qed.

Lemma write_image_entries (fs0 : FS) d (samples : list str) : forall f,
  foldl (write_image_entry w fs0 d) f samples
  = f ++ flat_map (image_entry w fs0 d) samples.
Proof.
  induction samples as [|s samples IH]; intros f; simpl.
  - by rewrite app_nil_r.
  - by rewrite IH, write_image_entry_app, <- app_assoc.
Qed.

(** One section, branch by branch. *)
Lemma model_section_cases (fs0 : FS) (base : str) (samples : list str) m :
  model_section w fs0 base samples m
  = section_header m
    :: (if path_exists fs0 (model_output_path base m)
        then flat_map (image_entry w fs0 (model_output_path base m)) samples
             ++ [RULE]
        else [STATUS_MISSING]).
Proof.
  unfold model_section, write_model_section.
  destruct (path_exists fs0 (model_output_path base m)); simpl; [|done].
  by rewrite write_image_entries.
Qed.

Lemma write_model_section_app (fs0 : FS) (base : str) (samples : list str) f m :
  write_model_section w fs0 base samples f m
  = f ++ model_section w fs0 base samples m.
Proof.
  unfold model_section, write_model_section.
  destruct (path_exists fs0 (model_output_path base m)); simpl.
  - rewrite !write_image_entries. simpl. by rewrite <- !app_assoc.
  - by rewrite <- !app_assoc.
Qed.

Lemma write_model_sections (fs0 : FS) (base : str) (samples : list str)
    (models : list str) : forall f,
  foldl (write_model_section w fs0 base samples) f models
  = f ++ flat_map (model_section w fs0 base samples) models.
Proof.
  induction models as [|m models IH]; intros f; simpl.
  - by rewrite app_nil_r.
  - by rewrite IH, write_model_section_app, <- app_assoc.
Qed.

(** The whole report, by the three ways the block can end. *)
Lemma report_chunks_cases (models : list str) (base image_dir : str)
    (n : Z) (fs0 : FS) :
  report_chunks w models base image_dir n fs0
  = match report_sample_images w image_dir n with
    | Raise e => ([TITLE; INTRO], Raise e)
    | Ok [] => ([TITLE; INTRO; NO_SAMPLES], Ok tt)
    | Ok samples =>
      ([TITLE; INTRO]
         ++ flat_map (model_section w fs0 base samples) models
         ++ [SUMMARY_TITLE; SUMMARY_BODY], Ok tt)
    end.
Proof.
  unfold report_chunks.
  destruct (report_sample_images w image_dir n) as [[|s samples]|e]; try done.
  by rewrite write_model_sections, <- app_assoc.
Qed.

End ReportFacts.

(** * Reading the section headers back *)

Section HeaderFacts.

Implicit Types (s m pre post : str).











Variable w : World.



End HeaderFacts.

(** * Properties of the shape of the report *)





(** * The output tree after the runner *)

Section TreeAfter.

Variable w : World.
Variables image_dir base_output_dir : str.
Variable num_sample_images : Z.

Implicit Types (m : str) (p : Path).

Local Abbreviation run m :=
  (run_ollama_ocr_integrated w m image_dir base_output_dir num_sample_images).

Lemma mkdir_parents_keeps_dirs (fs0 fs1 : FS) p q :
  mkdir_parents fs0 p = Ok fs1 -> is_dir fs0 q = true -> is_dir fs1 q = true.
Proof.
  intros Hm. unfold is_dir. destruct (anchor q); [done|]. simpl.
  destruct (mkdir_parents_lookup _ _ _ q Hm) as [-> | [H0 H1]]; [done|].
  by rewrite H0.
Qed.

Lemma open_w_keeps_dirs (fs0 fs1 : FS) p q :
  open_w fs0 p = Ok fs1 -> is_dir fs0 q = true -> is_dir fs1 q = true.
Proof.
  intros Ho Hq. destruct (can_open fs0 p) eqn:Ec.
  - rewrite (open_w_ok _ _ Ec) in Ho. injection Ho as <-.
    rewrite <- (is_dir_agree fs0); [done|].
    by apply dirs_agree_insert_file, can_open_not_dir.
  - destruct (open_w_raises _ _ Ec) as [e He]. by rewrite He in Ho.
Qed.

(** A call removes no directory, however it ends. *)
Lemma run_keeps_dirs m (fs0 : FS) q :
  is_dir fs0 q = true -> is_dir (tree_of (run m fs0)) q = true.
Proof.
  intros Hq.
  destruct (mkdir_parents fs0 (model_output_path base_output_dir m))
    as [fs1|e] eqn:Hm.
  2:{ by rewrite (run_mkdir_raises _ _ _ _ _ _ _ Hm). }
  pose proof (mkdir_parents_keeps_dirs _ _ _ _ Hm Hq) as Hq1.
  destruct (sampled_image_files w image_dir num_sample_images) as [l|e] eqn:Hs.
  2:{ by rewrite (run_listing_raises _ _ _ _ _ _ _ _ Hm Hs). }
  destruct (run_spec w m image_dir base_output_dir num_sample_images
              fs0 fs1 l Hm Hs) as (_ & Hag & _).
  by rewrite <- (is_dir_agree _ _ _ Hag).
Qed.

(** Once [mkdir] went through, the directory of the model is there,
    whatever the listing and the loop do afterwards. *)
Lemma run_makes_dir m (fs0 fs1 : FS) :
  mkdir_parents fs0 (model_output_path base_output_dir m) = Ok fs1 ->
  is_dir (tree_of (run m fs0)) (model_output_path base_output_dir m) = true.
Proof.
  intros Hm. pose proof (mkdir_parents_is_dir _ _ _ Hm) as Hd.
  destruct (sampled_image_files w image_dir num_sample_images) as [l|e] eqn:Hs.
  2:{ by rewrite (run_listing_raises _ _ _ _ _ _ _ _ Hm Hs). }
  destruct (run_spec w m image_dir base_output_dir num_sample_images
              fs0 fs1 l Hm Hs) as (_ & Hag & _).
  by rewrite <- (is_dir_agree _ _ _ Hag).
Qed.

Lemma run_returns_mkdir m (fs0 : FS) flag :
  result_of (run m fs0) = Ok flag ->
  exists fs1, mkdir_parents fs0 (model_output_path base_output_dir m) = Ok fs1.
Proof.
  destruct (mkdir_parents fs0 (model_output_path base_output_dir m))
    as [fs1|e] eqn:Hm; [by exists fs1|].
  by rewrite (run_mkdir_raises _ _ _ _ _ _ _ Hm).
Qed.

(** After the loop over the models, the directory of every model is
    there. *)
Lemma run_models_dirs (models : list str) : forall (fs0 : FS) out0,
  let o := run_models w models image_dir base_output_dir num_sample_images
                      fs0 out0 in
  (forall q, is_dir fs0 q = true -> is_dir (tree_of o) q = true)
  /\ (result_of o = Ok tt ->
      forall m, m ∈ models ->
        is_dir (tree_of o) (model_output_path base_output_dir m) = true).
Proof.
  induction models as [|m models IH]; intros fs0 out0; simpl.
  - split; [done|]. intros _ m Hm. by apply elem_of_nil in Hm.
  - pose proof (run_keeps_dirs m fs0) as Hk.
    pose proof (run_returns_mkdir m fs0) as Hr.
    pose proof (run_makes_dir m fs0) as Hd.
    destruct (run m fs0) as [[fs1 out1] [flag|e]] eqn:E;
      unfold tree_of, result_of in *; simpl in *.
    + destruct (IH fs1 (out0 ++ out1)) as [IH1 IH2].
      split; [intros q Hq; by apply IH1, Hk|].
      intros Hok m' Hm'. apply elem_of_cons in Hm' as [->|Hm'].
      * destruct (Hr flag eq_refl) as [fs1' Hfs1'].
        apply IH1. by apply (Hd fs1').
      * by apply IH2.
    + split; [done|]. intros H. discriminate H.
Qed.

(** The entry of an image whose output file is there, and of one whose
    output file is not. *)
Lemma image_entry_of_file (fs1 : FS) (d : Path) (s content : str) :
  anchor (output_file d s) = false ->
  fs1 !! output_file d s = Some (File content) ->
  image_entry w fs1 d s
  = image_header s
    :: match strip (universal_newlines content) with
       | [] => [TEXT_EMPTY; REVIEW]
       | c :: t => [TEXT_LABEL; FENCE_OPEN; c :: t; FENCE_CLOSE; REVIEW]
       end.
Proof.
  intros Ha Hl. rewrite image_entry_cases.
  unfold path_exists, read_text. by rewrite Ha, Hl.
Qed.


(** The text the runner saves is stripped. *)
Lemma answer_stripped m (x : Path) (text : str) :
  answer w m x = Ok text -> stripped text.
Proof.
  unfold answer, response_text, json_get, json_strip.
  destruct (read_bytes w x) as [bytes|]; [|done].
  destruct (post w x URL _) as [result|]; [|done].
  destruct result as [| | | | |members]; try done. simpl.
  destruct (dict_get _ members _) as [| | |s| |]; try done.
  intros [= <-]. apply strip_stripped.
Qed.

Lemma verdict_saved_inv m (d : Path) (fs1 : FS) (x p : Path) (text : str) :
  verdict w m d fs1 x = Saved p text ->
  answer w m x = Ok text /\ p = output_file d (stem x)
  /\ can_open fs1 p = true /\ existsb is_surrogate text = false.
Proof.
  unfold verdict.
  destruct (answer w m x) as [t|]; [|done].
  destruct (can_open fs1 _) eqn:Ec; [|done].
  destruct (existsb is_surrogate t) eqn:Es; [done|].
  by intros [= <- <-].
Qed.

(** What leaves the tree as it is: no text to save, or a file that
    cannot be opened. *)
Lemma verdict_untouched_iff m (d : Path) (fs1 : FS) (x : Path) :
  verdict w m d fs1 x = Untouched
  <-> (exists e, answer w m x = Raise e)
      \/ can_open fs1 (output_file d (stem x)) = false.
Proof.
  unfold verdict.
  destruct (answer w m x) as [t|e].
  - destruct (can_open fs1 _) eqn:Ec.
    + destruct (existsb is_surrogate t); (split; [done|]);
        by intros [[e He]|H].
    + split; [by right | done].
  - split; [|done]. intros _. left. by exists e.
Qed.

End TreeAfter.

(** What is at the output path of a saved image after the run, and the
    entry the report makes of it. *)
Lemma saved_entry_after_run (w : World)
    (model_name image_dir base_output_dir : str) (num_sample_images : Z)
    (fs0 fs1 : FS) (l1 : list Path) (x : Path) (l2 : list Path)
    (p : Path) (text : str) :
  let out_dir := model_output_path base_output_dir model_name in
  let o := run_ollama_ocr_integrated w model_name image_dir base_output_dir
             num_sample_images fs0 in
  mkdir_parents fs0 out_dir = Ok fs1 ->
  sampled_image_files w image_dir num_sample_images = Ok (l1 ++ x :: l2) ->
  verdict w model_name out_dir fs1 x = Saved p text ->
  (forall y, y ∈ l2 -> output_file out_dir (stem y) <> p) ->
  tree_of o !! p = Some (File text)
  /\ (forall fs2 : FS, fs2 !! p = Some (File text) ->
        image_entry w fs2 out_dir (stem x)
        = image_header (stem x)
          :: match universal_newlines text with
             | [] => [TEXT_EMPTY; REVIEW]
             | c :: t => [TEXT_LABEL; FENCE_OPEN; c :: t; FENCE_CLOSE; REVIEW]
             end).
Proof.
  intros out_dir o Hm Hs Hv Hl2.
  destruct (verdict_saved_inv _ _ _ _ _ _ _ Hv) as (Ha & Hp & Hc & _).
  split.
  - subst o.
    destruct (run_spec w model_name image_dir base_output_dir num_sample_images
                fs0 fs1 _ Hm Hs) as (Ht & _).
    rewrite Ht, (apply_verdicts_last _ _ _ _ _ _ _ _ p).
    + fold out_dir. rewrite Hv. simpl. apply lookup_insert_eq.
    + fold out_dir. by rewrite Hv.
    + intros y Hy Hty. apply (Hl2 y Hy). symmetry.
      by apply (verdict_target_path w model_name _ fs1).
  - intros fs2 H2. rewrite (image_entry_of_file w fs2 out_dir (stem x) text).
    + rewrite strip_fix; [done|].
      apply universal_newlines_stripped. by apply (answer_stripped w model_name x).
    + rewrite <- Hp. by apply (can_open_not_anchor fs1).
    + by rewrite <- Hp.
Qed.

(** * Properties of saved files and their report entries *)

(** C9.  The runner makes the output directory of the model before it
    looks at the image list: whenever a call returns, also with the flag
    false because no image file was found, the directory is there.
    Hence, once the loop over the models has returned, the report
    generator, which reads the tree after opening the report file, never
    takes the "output directory not found" branch for one of these models:
    the section of the model is its header, the entries of the sampled
    images and the rule. *)
Theorem output_directory_not_missing (w : World) (models : list str)
    (image_dir base_output_dir report_path : str) (num_sample_images : Z)
    (fs0 : FS) (out0 : list Event) :
  let o := run_models w models image_dir base_output_dir num_sample_images
                      fs0 out0 in
  (forall m (fs1 : FS) flag,
     result_of (run_ollama_ocr_integrated w m image_dir base_output_dir
                  num_sample_images fs1) = Ok flag ->
     is_dir (tree_of (run_ollama_ocr_integrated w m image_dir base_output_dir
                        num_sample_images fs1))
            (model_output_path base_output_dir m) = true)
  /\ (result_of o = Ok tt ->
      forall m, m ∈ models ->
        is_dir (tree_of o) (model_output_path base_output_dir m) = true
        /\ forall (fs2 : FS) sample_images,
             open_w (tree_of o) (Path_of report_path) = Ok fs2 ->
             model_section w fs2 base_output_dir sample_images m
             = section_header m
               :: flat_map (image_entry w fs2 (model_output_path base_output_dir m))
                           sample_images
               ++ [RULE]).
Proof.
  intros o. split.
  - intros m fs1 flag Hr.
    destruct (run_returns_mkdir _ _ _ _ _ _ _ Hr) as [fs1' Hm].
    by apply (run_makes_dir _ _ _ _ _ _ fs1').
  - intros Hok m Hm.
    destruct (run_models_dirs w image_dir base_output_dir num_sample_images
                models fs0 out0) as [_ Hd].
    specialize (Hd Hok m Hm). split; [exact Hd|].
    intros fs2 samples Ho. rewrite model_section_cases.
    rewrite (is_dir_exists _ _ (open_w_keeps_dirs _ _ _ _ Ho Hd)). done.
Qed.

Lemma output_directory_not_missing_staged :
  let o := run_models stage_no_images MODELS STAGE_DIR STAGE_OUT 3 ∅ [] in
  result_of o = Ok tt
  /\ lit "deepseek-ocr:latest" ∈ MODELS
  /\ is_dir (tree_of o) (model_output_path STAGE_OUT (lit "deepseek-ocr:latest"))
     = true.
Proof.
  intros o.
  assert (Hok : result_of o = Ok tt) by reflexivity.
  assert (Hin : lit "deepseek-ocr:latest" ∈ MODELS)
    by (unfold MODELS; rewrite !elem_of_cons; right; right; left; reflexivity).
  split; [exact Hok|]. split; [exact Hin|].
  exact (proj1 (proj2 (output_directory_not_missing stage_no_images MODELS
                         STAGE_DIR STAGE_OUT COMPARISON_REPORT_PATH 3 ∅ [])
                      Hok _ Hin)).
Defined.




(** * Properties of failed and empty answers *)

Section FailureFacts.



(** Anything but an object has no [get]. *)
Lemma response_text_not_object (result : json) :
  (forall members, result <> JObject members) ->
  response_text result = Raise AttributeError.
Proof. intros H. destruct result; try done. by destruct (H members). Qed.

End FailureFacts.







(** * The script as a whole *)

(** The three models of the script get three different directories. *)
Example MODELS_directories :
  map model_output_dir_name MODELS
  = [lit "yasserrmd_Nanonets-OCR-s_latest";
     lit "MedAIBase_PaddleOCR-VL_0.9b";
     lit "deepseek-ocr_latest"]
  /\ NoDup (map (model_output_path BASE_OUTPUT_DIRECTORY) MODELS).
Proof.
  split; [reflexivity|].
  apply (bool_decide_unpack _). vm_compute. exact I.
Qed.

(** X12.  When [main] returns, the report file holds the title, the
    introduction and then either the "no sample" line or one section per
    model of [MODELS], none of them the "directory not found" section,
    followed by the closing summary. *)
Lemma main_report_has_every_section (w : World) (fs0 : FS) :
  result_of (main w fs0) = Ok tt ->
  exists (fs_read : FS) (sample_images : list str),
    report_sample_images w IMAGE_DIRECTORY NUM_SAMPLE_IMAGES = Ok sample_images
    /\ tree_of (main w fs0) !! Path_of COMPARISON_REPORT_PATH
       = Some (File (concat
           ([TITLE; INTRO]
            ++ match sample_images with
               | [] => [NO_SAMPLES]
               | _ => flat_map (present_section w fs_read BASE_OUTPUT_DIRECTORY
                                                sample_images) MODELS
                      ++ [SUMMARY_TITLE; SUMMARY_BODY]
               end))).
Proof.
  unfold main.
  destruct (mkdir_parents fs0 (Path_of BASE_OUTPUT_DIRECTORY)) as [fs1|e] eqn:Hm;
    [|done].
  pose proof (run_models_dirs w IMAGE_DIRECTORY BASE_OUTPUT_DIRECTORY
                NUM_SAMPLE_IMAGES MODELS fs1 []) as [_ Hd].
  destruct (run_models w MODELS IMAGE_DIRECTORY BASE_OUTPUT_DIRECTORY
                       NUM_SAMPLE_IMAGES fs1 []) as [[fs2 out2] [[]|e]] eqn:Er;
    [|done].
  unfold tree_of, result_of in Hd. cbn [fst snd] in Hd. specialize (Hd eq_refl).
  unfold generate_comparison_report.
  destruct (open_w fs2 (Path_of COMPARISON_REPORT_PATH)) as [fs_read|e] eqn:Ho;
    [|done].
  assert (Hsec : forall samples,
    flat_map (model_section w fs_read BASE_OUTPUT_DIRECTORY samples) MODELS
    = flat_map (present_section w fs_read BASE_OUTPUT_DIRECTORY samples) MODELS).
  { intros samples. rewrite !flat_map_concat_map. f_equal. apply map_ext_in.
    intros m Hin. apply list_elem_of_In in Hin.
    rewrite model_section_cases.
    by rewrite (is_dir_exists _ _ (open_w_keeps_dirs _ _ _ _ Ho (Hd m Hin))). }
  rewrite report_chunks_cases.
  destruct (report_sample_images w IMAGE_DIRECTORY NUM_SAMPLE_IMAGES)
    as [[|s samples]|e] eqn:Hs; unfold tree_of, result_of; cbn [fst snd];
    [| |done].
  - intros _. exists fs_read, []. split; [done|]. by rewrite lookup_insert_eq.
  - intros _. exists fs_read, (s :: samples). split; [done|].
    by rewrite lookup_insert_eq, Hsec.
Qed.

(** An answer that cannot be encoded: the output file is opened, the
    write raises, an empty file stays behind and the call returns
    false. *)
Example write_failure_leaves_empty_file :
  let o := run_ollama_ocr_integrated stage_surrogate STAGE_MODEL STAGE_DIR STAGE_OUT 3 ∅ in
  verdict stage_surrogate STAGE_MODEL STAGE_OUT_DIR stage_tree [lit "imgs"; lit "s.png"]
  = Emptied (output_file STAGE_OUT_DIR (lit "s"))
  /\ result_of o = Ok false
  /\ errors_logged (events_of o) = [lit "s.png"]
  /\ tree_of o !! output_file STAGE_OUT_DIR (lit "s") = Some (File [])
  /\ image_entry stage_surrogate (tree_of o) STAGE_OUT_DIR (lit "s")
     = [image_header (lit "s"); TEXT_EMPTY; REVIEW].
Proof. vm_compute. repeat split; reflexivity. Qed.

(** [main] on a staged directory: it returns, the report is on disk and
    holds, for the first model, the saved text of the first receipt and
    the "file not found" marker of the second. *)
Example main_staged :
  let o := main stage_receipts ∅ in
  let out_dir := model_output_path BASE_OUTPUT_DIRECTORY
                   (lit "yasserrmd/Nanonets-OCR-s:latest") in
  result_of o = Ok tt
  /\ tree_of o !! output_file out_dir (lit "r1") = Some (File (lit "TOTAL 12.50"))
  /\ tree_of o !! output_file out_dir (lit "r2") = None
  /\ image_entry stage_receipts (tree_of o) out_dir (lit "r1")
     = [image_header (lit "r1"); TEXT_LABEL; FENCE_OPEN; lit "TOTAL 12.50";
        FENCE_CLOSE; REVIEW]
  /\ image_entry stage_receipts (tree_of o) out_dir (lit "r2")
     = [image_header (lit "r2"); TEXT_NO_FILE; REVIEW_NO_FILE]
  /\ match tree_of o !! Path_of COMPARISON_REPORT_PATH with
     | Some (File text) => ends_with text CLOSING
     | _ => false
     end = true.
Proof. vm_compute. repeat split; reflexivity. Qed.

(** * More about the runner *)

Section VerdictFacts.

Variable w : World.
Variable model_name : str.
Variable out_dir : Path.

Implicit Types (x p : Path) (l : list Path).

Local Abbreviation vd := (verdict w model_name out_dir).
Local Abbreviation run_over := (apply_verdicts w model_name out_dir).
Local Abbreviation last_at := (decide_at w model_name out_dir).

Lemma apply_verdict_lookup (fs1 fs2 : FS) x p :
  apply_verdict (vd fs1 x) fs2 !! p
  = if decide (target (vd fs1 x) = Some p)
    then verdict_node (vd fs1 x) else fs2 !! p.
Proof.
  destruct (vd fs1 x) as [q t|q|]; simpl.
  - destruct (decide (Some q = Some p)) as [[= ->]|Hne].
    + apply lookup_insert_eq.
    + apply lookup_insert_ne. congruence.
  - destruct (decide (Some q = Some p)) as [[= ->]|Hne].
    + apply lookup_insert_eq.
    + apply lookup_insert_ne. congruence.
  - by destruct (decide (None = Some p)).
Qed.

(** Path by path, the loop is [decide_at]. *)
Lemma apply_verdicts_lookup (fs1 : FS) l : forall (fs2 : FS) p,
  run_over fs1 l fs2 !! p = last_at fs1 l p (fs2 !! p).
Proof.
  unfold apply_verdicts, decide_at.
  induction l as [|x l IH]; intros fs2 p; [done|].
  simpl. by rewrite IH, apply_verdict_lookup.
Qed.

Lemma decide_at_snoc (fs1 : FS) l x p (o : option Node) :
  last_at fs1 (l ++ [x]) p o
  = if decide (target (vd fs1 x) = Some p)
    then verdict_node (vd fs1 x) else last_at fs1 l p o.
Proof. unfold decide_at. by rewrite foldl_app. Qed.

(** Going over the images a second time changes nothing. *)
Lemma decide_at_idem (fs1 : FS) l p (o : option Node) :
  last_at fs1 l p (last_at fs1 l p o) = last_at fs1 l p o.
Proof.
  induction l as [|x l IH] using rev_ind; [done|].
  rewrite !decide_at_snoc.
  destruct (decide (target (vd fs1 x) = Some p)); [done|].
  apply IH.
Qed.

(** Either no verdict points to [p], or one of them decided. *)
Lemma decide_at_cases (fs1 : FS) l p (o : option Node) :
  ((forall x, x ∈ l -> target (vd fs1 x) <> Some p) /\ last_at fs1 l p o = o)
  \/ (exists x, x ∈ l /\ target (vd fs1 x) = Some p
        /\ last_at fs1 l p o = verdict_node (vd fs1 x)).
Proof.
  induction l as [|x l IH] using rev_ind.
  - left. split; [|done]. intros x Hx. by apply elem_of_nil in Hx.
  - rewrite decide_at_snoc.
    destruct (decide (target (vd fs1 x) = Some p)) as [Hx|Hx].
    + right. exists x. split; [|done]. apply elem_of_app. right. by left.
    + destruct IH as [[Hno Heq]|(y & Hy & Hty & Heq)].
      * left. split; [|done]. intros y Hy.
        apply elem_of_app in Hy as [Hy|Hy]; [by apply Hno|].
        by apply list_elem_of_singleton in Hy as ->.
      * right. exists y. split; [|done]. apply elem_of_app. by left.
Qed.

Lemma apply_verdicts_ext (fs1 fs2 : FS) l (fs3 : FS) :
  dirs_agree fs1 fs2 -> run_over fs1 l fs3 = run_over fs2 l fs3.
Proof.
  intros H. unfold apply_verdicts. revert fs3.
  induction l as [|x l IH]; intros fs3; [done|].
  simpl. by rewrite IH, (verdict_agree w model_name out_dir fs1 fs2 x H).
Qed.

(** What a verdict leaves is a stripped text that UTF-8 encodes. *)
Lemma verdict_node_text (fs1 : FS) x (nd : Node) :
  verdict_node (vd fs1 x) = Some nd ->
  exists text, nd = File text /\ stripped text
    /\ existsb is_surrogate text = false.
Proof.
  destruct (vd fs1 x) as [q t|q|] eqn:E; simpl; [| |done]; intros [= <-].
  - destruct (verdict_saved_inv _ _ _ _ _ _ _ E) as (Ha & _ & _ & Hs).
    exists t. split; [done|]. split; [|done].
    by apply (answer_stripped w model_name x).
  - exists []. split; [done|]. split; [|done]. split; [done | by left].
Qed.

End VerdictFacts.

Section MkdirAgain.

(** Every directory [mkdir_parents] is asked for is there afterwards, so
    asking again changes nothing, also on a tree with the same
    directories. *)
Lemma mkdir_from_again (rest : list str) : forall (pre : Path) (fs0 fs1 t : FS),
  mkdir_from pre rest fs0 = Ok fs1 ->
  dirs_agree fs1 t ->
  mkdir_from pre rest t = Ok t.
Proof.
  induction rest as [|c rest IH]; intros pre fs0 fs1 t H Hag; [done|].
  simpl in *.
  destruct (anchor (pre ++ [c])); [by apply (IH _ fs0 fs1)|].
  assert (Hq : forall fs_mid : FS,
            fs_mid !! (pre ++ [c]) = Some Dir ->
            mkdir_from (pre ++ [c]) rest fs_mid = Ok fs1 ->
            t !! (pre ++ [c]) = Some Dir).
  { intros fs_mid Hmid Hrec. apply Hag.
    destruct (mkdir_from_lookup _ _ _ _ (pre ++ [c]) Hrec) as [->|[Hn _]]; [done|].
    by rewrite Hmid in Hn. }
  destruct (fs0 !! (pre ++ [c])) as [[|?]|] eqn:E; [| done |].
  - rewrite (Hq fs0 E H). by apply (IH _ fs0 fs1).
  - rewrite (Hq _ (lookup_insert_eq _ _ _) H).
    by apply (IH _ (<[pre ++ [c] := Dir]> fs0) fs1).
Qed.

(** What [mkdir_parents] changes is an ancestor of its target, or the
    target. *)
Lemma mkdir_from_changed (rest : list str) : forall (pre : Path) (fs0 fs1 : FS) p,
  mkdir_from pre rest fs0 = Ok fs1 ->
  fs1 !! p <> fs0 !! p ->
  (length p <= length (pre ++ rest))%nat /\ fs1 !! p = Some Dir.
Proof.
  induction rest as [|c rest IH]; intros pre fs0 fs1 p H Hne.
  - simpl in H. injection H as <-. done.
  - simpl in H.
    replace (pre ++ c :: rest) with ((pre ++ [c]) ++ rest)
      by (by rewrite <- app_assoc).
    destruct (anchor (pre ++ [c])); [by apply (IH _ fs0)|].
    destruct (fs0 !! (pre ++ [c])) as [[|?]|] eqn:E; [| done |].
    + by apply (IH _ fs0).
    + destruct (decide (fs1 !! p = <[pre ++ [c] := Dir]> fs0 !! p)) as [Heq|Hneq].
      * destruct (decide (pre ++ [c] = p)) as [<-|Hp].
        -- rewrite Heq, lookup_insert_eq. split; [|done].
           rewrite !length_app. simpl. lia.
        -- rewrite lookup_insert_ne in Heq by done. done.
      * by apply (IH _ _ _ _ H).
Qed.

End MkdirAgain.

(** * What a call of the runner leaves behind *)

Section RunnerMore.

Variable w : World.
Variables model_name image_dir base_output_dir : str.
Variable num_sample_images : Z.

Local Abbreviation out_dir := (model_output_path base_output_dir model_name).
Local Abbreviation run :=
  (run_ollama_ocr_integrated w model_name image_dir base_output_dir
                             num_sample_images).
Local Abbreviation vd := (verdict w model_name out_dir).

Lemma target_verdict_node (v : Verdict) (p : Path) :
  target v = Some p -> exists text, verdict_node v = Some (File text).
Proof. destruct v as [q t|q|]; simpl; [by exists t | by exists [] | done]. Qed.

Lemma forallb_saved_agree (fs1 fs2 : FS) (l : list Path) :
  dirs_agree fs1 fs2 ->
  forallb (fun x => is_saved (vd fs1 x)) l
  = forallb (fun x => is_saved (vd fs2 x)) l.
Proof.
  intros H. induction l as [|x l IH]; [done|]. simpl.
  by rewrite IH, (verdict_agree w model_name out_dir fs1 fs2 x H).
Qed.

(** Path by path: the tree after a call that went through the loop. *)
Lemma run_lookup (fs0 fs1 : FS) (l : list Path) (p : Path) :
  mkdir_parents fs0 out_dir = Ok fs1 ->
  sampled_image_files w image_dir num_sample_images = Ok l ->
  tree_of (run fs0) !! p = decide_at w model_name out_dir fs1 l p (fs1 !! p).
Proof.
  intros Hm Hs.
  destruct (run_spec w model_name image_dir base_output_dir num_sample_images
              fs0 fs1 l Hm Hs) as (Ht & _).
  by rewrite Ht, apply_verdicts_lookup.
Qed.



End RunnerMore.

(** X1.  Running a model a second time, with the same files read and the
    same answers given, leaves the output tree and the returned value (or
    the escaping exception) exactly as the first run left them. *)
Theorem rerun_changes_nothing (w : World)
    (model_name image_dir base_output_dir : str) (num_sample_images : Z)
    (fs0 : FS) :
  let o1 := run_ollama_ocr_integrated w model_name image_dir base_output_dir
              num_sample_images fs0 in
  let o2 := run_ollama_ocr_integrated w model_name image_dir base_output_dir
              num_sample_images (tree_of o1) in
  tree_of o2 = tree_of o1 /\ result_of o2 = result_of o1.
Proof.
  intros o1 o2. subst o1 o2.
  set (d := model_output_path base_output_dir model_name).
  destruct (mkdir_parents fs0 d) as [fs1|e] eqn:Hm.
  2:{ rewrite (run_mkdir_raises _ _ _ _ _ _ _ Hm).
      change (tree_of (A:=bool) (fs0, [], Raise e)) with fs0.
      by rewrite (run_mkdir_raises _ _ _ _ _ _ _ Hm). }
  destruct (sampled_image_files w image_dir num_sample_images) as [l|e] eqn:Hs.
  2:{ rewrite (run_listing_raises _ _ _ _ _ _ _ _ Hm Hs).
      change (tree_of (A:=bool) (fs1, [], Raise e)) with fs1.
      assert (Hm' : mkdir_parents fs1 d = Ok fs1)
        by (apply (mkdir_from_again _ _ fs0 fs1); [exact Hm | apply dirs_agree_refl]).
      by rewrite (run_listing_raises _ _ _ _ _ _ _ _ Hm' Hs). }
  destruct (run_spec w model_name image_dir base_output_dir num_sample_images
              fs0 fs1 l Hm Hs) as (Ht & Hag & Hr & _).
  set (T := tree_of (run_ollama_ocr_integrated w model_name image_dir
                       base_output_dir num_sample_images fs0)) in *.
  assert (Hm' : mkdir_parents T d = Ok T)
    by (apply (mkdir_from_again _ _ fs0 fs1); [exact Hm | exact Hag]).
  destruct (run_spec w model_name image_dir base_output_dir num_sample_images
              T T l Hm' Hs) as (Ht' & _ & Hr' & _).
  split.
  - rewrite Ht'.
    rewrite <- (apply_verdicts_ext w model_name _ fs1 T l T Hag).
    apply map_eq. intros p.
    rewrite apply_verdicts_lookup, Ht, apply_verdicts_lookup.
    apply decide_at_idem.
  - rewrite Hr', Hr.
    by rewrite (forallb_saved_agree w model_name base_output_dir fs1 T l Hag).
Qed.

(** X2.  The runner deletes nothing: whatever its outcome, every
    directory of the tree is still a directory afterwards, every regular
    file is still a regular file (its text may be replaced), and so every
    path that existed still exists. *)
Theorem runner_never_deletes (w : World)
    (model_name image_dir base_output_dir : str) (num_sample_images : Z)
    (fs0 : FS) (p : Path) :
  let o := run_ollama_ocr_integrated w model_name image_dir base_output_dir
             num_sample_images fs0 in
  (is_dir fs0 p = true -> is_dir (tree_of o) p = true)
  /\ (forall text, fs0 !! p = Some (File text) ->
        exists text', tree_of o !! p = Some (File text'))
  /\ (path_exists fs0 p = true -> path_exists (tree_of o) p = true).
Proof.
  intros o. subst o.
  assert (Hdir : is_dir fs0 p = true ->
            is_dir (tree_of (run_ollama_ocr_integrated w model_name image_dir
                               base_output_dir num_sample_images fs0)) p = true)
    by apply run_keeps_dirs.
  assert (Hfile : forall text, fs0 !! p = Some (File text) ->
            exists text', tree_of (run_ollama_ocr_integrated w model_name
                                     image_dir base_output_dir
                                     num_sample_images fs0) !! p
                          = Some (File text')).
  { intros text Hp.
    destruct (mkdir_parents fs0 (model_output_path base_output_dir model_name)) as [fs1|e] eqn:Hm.
    2:{ rewrite (run_mkdir_raises _ _ _ _ _ _ _ Hm). by exists text. }
    assert (Hp1 : fs1 !! p = Some (File text)).
    { destruct (mkdir_parents_lookup _ _ _ p Hm) as [->|[Hn _]]; [done|].
      by rewrite Hp in Hn. }
    destruct (sampled_image_files w image_dir num_sample_images) as [l|e] eqn:Hs.
    2:{ rewrite (run_listing_raises _ _ _ _ _ _ _ _ Hm Hs). by exists text. }
    rewrite (run_lookup w model_name image_dir base_output_dir
               num_sample_images fs0 fs1 l p Hm Hs).
    destruct (decide_at_cases w model_name (model_output_path base_output_dir model_name) fs1 l p (fs1 !! p))
      as [[_ ->]|(x & _ & Hx & ->)]; [by exists text|].
    by apply (target_verdict_node _ p). }
  split; [exact Hdir|]. split; [exact Hfile|].
  unfold path_exists. intros Hp.
  destruct (anchor p) eqn:Ea; [done|]. simpl in *.
  destruct (fs0 !! p) as [[|text]|] eqn:E; [| |done].
  - assert (Hd : is_dir fs0 p = true) by (unfold is_dir; by rewrite E, orb_true_r).
    specialize (Hdir Hd). unfold is_dir in Hdir. rewrite Ea in Hdir.
    simpl in Hdir. by destruct (tree_of _ !! p) as [[|?]|].
  - destruct (Hfile text eq_refl) as [text' ->]. done.
Qed.

(** X3.  A call that returns true has saved every sampled image: the list
    of sampled images is not empty, and the output file of each of them
    exists and holds a stripped text that UTF-8 encodes. *)
Theorem true_flag_means_every_output (w : World)
    (model_name image_dir base_output_dir : str) (num_sample_images : Z)
    (fs0 : FS) :
  let out_dir := model_output_path base_output_dir model_name in
  let o := run_ollama_ocr_integrated w model_name image_dir base_output_dir
             num_sample_images fs0 in
  result_of o = Ok true ->
  image_files_of w image_dir num_sample_images <> []
  /\ forall x, x ∈ image_files_of w image_dir num_sample_images ->
       path_exists (tree_of o) (output_file out_dir (stem x)) = true
       /\ exists text,
            tree_of o !! output_file out_dir (stem x) = Some (File text)
            /\ stripped text /\ existsb is_surrogate text = false.
Proof.
  intros d o Hr. subst o d. unfold image_files_of.
  destruct (mkdir_parents fs0 (model_output_path base_output_dir model_name)) as [fs1|e] eqn:Hm.
  2:{ by rewrite (run_mkdir_raises _ _ _ _ _ _ _ Hm) in Hr. }
  destruct (sampled_image_files w image_dir num_sample_images) as [l|e] eqn:Hs.
  2:{ by rewrite (run_listing_raises _ _ _ _ _ _ _ _ Hm Hs) in Hr. }
  destruct (run_spec w model_name image_dir base_output_dir num_sample_images
              fs0 fs1 l Hm Hs) as (_ & _ & Hr' & _).
  rewrite Hr' in Hr. injection Hr as Hr.
  apply andb_true_iff in Hr as [Hne Hall].
  split; [by destruct l|].
  intros x Hx.
  assert (Hsx : is_saved (verdict w model_name (model_output_path base_output_dir model_name) fs1 x) = true).
  { rewrite forallb_forall in Hall. apply Hall. by apply list_elem_of_In. }
  destruct (verdict w model_name (model_output_path base_output_dir model_name) fs1 x) as [q t|q|] eqn:Ev; try done.
  destruct (verdict_saved_inv _ _ _ _ _ _ _ Ev) as (_ & -> & Hopen & _).
  assert (Hnode : exists nd,
            tree_of (run_ollama_ocr_integrated w model_name image_dir
                       base_output_dir num_sample_images fs0)
              !! output_file (model_output_path base_output_dir model_name) (stem x) = Some nd
            /\ exists y, verdict_node (verdict w model_name (model_output_path base_output_dir model_name) fs1 y) = Some nd).
  { rewrite (run_lookup w model_name image_dir base_output_dir
               num_sample_images fs0 fs1 l _ Hm Hs).
    destruct (decide_at_cases w model_name (model_output_path base_output_dir model_name) fs1 l (output_file (model_output_path base_output_dir model_name) (stem x))
                (fs1 !! output_file (model_output_path base_output_dir model_name) (stem x)))
      as [[Hno _]|(y & _ & Hy & ->)].
    - exfalso. apply (Hno x Hx). by rewrite Ev.
    - destruct (target_verdict_node _ _ Hy) as [ty Hty].
      exists (File ty). split; [done|]. by exists y. }
  destruct Hnode as (nd & Hl & y & Hy).
  destruct (verdict_node_text w model_name (model_output_path base_output_dir model_name) fs1 y nd Hy) as (text & -> & Hst & Hsur).
  split.
  - unfold path_exists. by rewrite Hl, orb_true_r.
  - by exists text.
Qed.

Lemma true_flag_means_every_output_staged :
  let o := run_ollama_ocr_integrated stage_plain STAGE_MODEL STAGE_DIR STAGE_OUT 3 ∅ in
  result_of o = Ok true
  /\ path_exists (tree_of o) (output_file STAGE_OUT_DIR (lit "r3")) = true.
Proof.
  intros o.
  assert (Hr : result_of o = Ok true) by (vm_compute; reflexivity).
  split; [exact Hr|].
  refine (proj1 (proj2 (true_flag_means_every_output stage_plain STAGE_MODEL
                          STAGE_DIR STAGE_OUT 3 ∅ Hr)
                   [lit "imgs"; lit "r3.jpeg"] _)).
  vm_compute. do 2 apply list_elem_of_further. apply list_elem_of_here.
Defined.


(** X5.  Every regular file a call creates or rewrites holds a stripped
    text without surrogates: what the report reads back strips to
    itself. *)
Theorem written_files_are_stripped (w : World)
    (model_name image_dir base_output_dir : str) (num_sample_images : Z)
    (fs0 : FS) (p : Path) (nd : Node) :
  let o := run_ollama_ocr_integrated w model_name image_dir base_output_dir
             num_sample_images fs0 in
  written fs0 (tree_of o) !! p = Some nd ->
  exists text, nd = File text /\ stripped text
    /\ existsb is_surrogate text = false
    /\ strip (universal_newlines text) = universal_newlines text.
Proof.
  intros o Hw. subst o.
  apply map_lookup_filter_Some in Hw as [Hl [Hf Hne]]. simpl in *.
  assert (Hgoal : exists text, nd = File text /\ stripped text
                    /\ existsb is_surrogate text = false).
  { destruct (mkdir_parents fs0 (model_output_path base_output_dir model_name)) as [fs1|e] eqn:Hm.
    2:{ by rewrite (run_mkdir_raises _ _ _ _ _ _ _ Hm) in Hl. }
    assert (Hmk : fs1 !! p = Some nd -> False).
    { intros H1. destruct (mkdir_parents_lookup _ _ _ p Hm) as [Heq|[_ Hd]].
      - by rewrite Heq in H1.
      - rewrite Hd in H1. injection H1 as <-. done. }
    destruct (sampled_image_files w image_dir num_sample_images) as [l|e] eqn:Hs.
    2:{ rewrite (run_listing_raises _ _ _ _ _ _ _ _ Hm Hs) in Hl.
        by destruct (Hmk Hl). }
    rewrite (run_lookup w model_name image_dir base_output_dir
               num_sample_images fs0 fs1 l p Hm Hs) in Hl.
    destruct (decide_at_cases w model_name (model_output_path base_output_dir model_name) fs1 l p (fs1 !! p))
      as [[_ Heq]|(x & _ & _ & Heq)]; rewrite Heq in Hl.
    - by destruct (Hmk Hl).
    - by apply (verdict_node_text w model_name (model_output_path base_output_dir model_name) fs1 x). }
  destruct Hgoal as (text & -> & Hst & Hsur).
  exists text. split; [done|]. split; [done|]. split; [done|].
  by apply strip_fix, universal_newlines_stripped.
Qed.

Lemma written_files_are_stripped_staged :
  let o := run_ollama_ocr_integrated stage_plain STAGE_MODEL STAGE_DIR STAGE_OUT 3 ∅ in
  written ∅ (tree_of o) !! output_file STAGE_OUT_DIR (lit "r2")
  = Some (File (lit "MILK 2.10"))
  /\ stripped (lit "MILK 2.10").
Proof.
  intros o.
  assert (Hw : written ∅ (tree_of o) !! output_file STAGE_OUT_DIR (lit "r2")
               = Some (File (lit "MILK 2.10"))) by (vm_compute; reflexivity).
  split; [exact Hw|].
  destruct (written_files_are_stripped stage_plain STAGE_MODEL STAGE_DIR
              STAGE_OUT 3 ∅ _ _ Hw) as (text & Heq & Hst & _).
  injection Heq as <-. exact Hst.
Defined.

(** * More about directories and samples *)

Section DirectoryMore.

Implicit Types (s m : str) (p : Path).

Lemma sanitize_char_idem (c : char) : sanitize_char (sanitize_char c) = sanitize_char c.
Proof.
  unfold sanitize_char.
  destruct (N.eqb_spec c 47) as [->|H47]; [done|].
  destruct (N.eqb_spec c 58) as [->|H58]; [done|]. simpl.
  destruct (N.eqb_spec c 47); [done|]. by destruct (N.eqb_spec c 58).
Qed.

Lemma sanitize_char_dot (c : char) : sanitize_char c = DOT <-> c = DOT.
Proof.
  unfold sanitize_char, DOT.
  destruct (N.eqb_spec c 47) as [->|H47]; [done|].
  by destruct (N.eqb_spec c 58) as [->|H58].
Qed.

Lemma trivial_name_iff s : trivial_name s = true <-> s = [] \/ s = [DOT].
Proof.
  unfold trivial_name, str_eqb. rewrite orb_true_iff, !bool_decide_eq_true. done.
Qed.

Lemma trivial_name_false s : trivial_name s = false -> s <> [] /\ s <> [DOT].
Proof.
  intros H. split; intros ->; by vm_compute in H.
Qed.

(** Joining a name without a slash adds one component, or none when the
    name is empty or ".". *)
Lemma joinpath_name p s :
  SLASH ∉ s -> joinpath p s = p ++ (if trivial_name s then [] else [s]).
Proof.
  intros Hs. unfold joinpath, parse_parts.
  rewrite (parse_root_plain s Hs), (split_on_plain s Hs). simpl.
  unfold trivial_name. by destruct (str_eqb s []), (str_eqb s [DOT]).
Qed.

Lemma model_output_path_length (base m : str) :
  trivial_name (model_output_dir_name m) = false ->
  model_output_path base m = Path_of base ++ [model_output_dir_name m].
Proof.
  intros H. unfold model_output_path.
  rewrite joinpath_name by apply model_output_dir_name_clean. by rewrite H.
Qed.

End DirectoryMore.

(** X6.  The directory of a model is the base directory plus exactly one
    component: the model name with each '/' and ':' replaced, of the same
    length, with no separator left, and unchanged by a second
    replacement.  Only for the model names "" and "." there is no
    component, and the outputs go to the base directory itself. *)
Theorem model_directory_is_one_component (base_output_dir model_name : str) :
  let dn := model_output_dir_name model_name in
  length dn = length model_name
  /\ (SLASH ∉ dn) /\ (58 ∉ dn)
  /\ model_output_dir_name dn = dn
  /\ model_output_path base_output_dir model_name
     = Path_of base_output_dir ++ (if trivial_name dn then [] else [dn])
  /\ (trivial_name dn = true <-> model_name = [] \/ model_name = [DOT]).
Proof.
  intros dn. subst dn.
  split; [by rewrite model_output_dir_name_chars, length_map|].
  split; [apply model_output_dir_name_clean|].
  split; [apply model_output_dir_name_clean|].
  split.
  { rewrite !model_output_dir_name_chars, map_map.
    apply map_ext. intros c. apply sanitize_char_idem. }
  split.
  { unfold model_output_path. apply joinpath_name, model_output_dir_name_clean. }
  rewrite trivial_name_iff, model_output_dir_name_chars.
  split; (intros [H|H]; [left|right]).
  - by destruct model_name.
  - destruct model_name as [|c [|c' r]]; [done| |done].
    simpl in H. injection H as H. apply (proj1 (sanitize_char_dot c)) in H.
    by rewrite H.
  - by rewrite H.
  - by rewrite H.
Qed.

Example model_directory_edge_cases :
  model_output_path (lit "out") [] = [lit "out"]
  /\ model_output_path (lit "out") (lit ".") = [lit "out"]
  /\ model_output_path (lit "out") (lit "a/b:c") = [lit "out"; lit "a_b_c"]
  /\ model_output_path (lit "out") (lit "a:b/c") = [lit "out"; lit "a_b_c"].
Proof. vm_compute. repeat split; reflexivity. Qed.

Section FrameFacts.

Variable w : World.
Variables image_dir base_output_dir : str.
Variable num_sample_images : Z.

(** Whatever a call changes is a directory on the way to the directory of
    the model, or the output file of a sampled image. *)
Lemma run_changed (model_name : str) (fs0 : FS) (p : Path) :
  let out_dir := model_output_path base_output_dir model_name in
  let o := run_ollama_ocr_integrated w model_name image_dir base_output_dir
             num_sample_images fs0 in
  tree_of o !! p <> fs0 !! p ->
  ((length p <= length out_dir)%nat /\ tree_of o !! p = Some Dir)
  \/ exists x, x ∈ image_files_of w image_dir num_sample_images
       /\ p = output_file out_dir (stem x).
Proof.
  intros d o Hne. subst o d. unfold image_files_of.
  destruct (mkdir_parents fs0 (model_output_path base_output_dir model_name))
    as [fs1|e] eqn:Hm.
  2:{ by rewrite (run_mkdir_raises _ _ _ _ _ _ _ Hm) in Hne. }
  assert (Hmk : forall nd, fs1 !! p = nd -> nd <> fs0 !! p ->
            (length p <= length (model_output_path base_output_dir model_name))%nat
            /\ nd = Some Dir).
  { intros nd <- H1.
    apply (mkdir_from_changed _ [] fs0 fs1 p Hm H1). }
  destruct (sampled_image_files w image_dir num_sample_images) as [l|e] eqn:Hs.
  2:{ rewrite (run_listing_raises _ _ _ _ _ _ _ _ Hm Hs) in *.
      left. by apply Hmk. }
  rewrite (run_lookup w model_name image_dir base_output_dir
             num_sample_images fs0 fs1 l p Hm Hs) in *.
  destruct (decide_at_cases w model_name
              (model_output_path base_output_dir model_name) fs1 l p (fs1 !! p))
    as [[_ Heq]|(x & Hx & Htx & _)].
  - left. rewrite Heq in *. by apply Hmk.
  - right. exists x. split; [done|].
    by apply (verdict_target_path w model_name _ fs1).
Qed.

End FrameFacts.

(** X7.  A run of one model leaves the outputs of every other model
    alone: when the directory names of two models differ (and neither is
    "" or "."), and the sampled images have plain names, no output file
    of the other model is created, rewritten or removed. *)
Theorem other_model_outputs_untouched (w : World)
    (model_name other_model image_dir base_output_dir : str)
    (num_sample_images : Z) (fs0 : FS) (image_stem : str) :
  let o := run_ollama_ocr_integrated w model_name image_dir base_output_dir
             num_sample_images fs0 in
  let p := output_file (model_output_path base_output_dir other_model) image_stem in
  trivial_name (model_output_dir_name model_name) = false ->
  trivial_name (model_output_dir_name other_model) = false ->
  model_output_dir_name model_name <> model_output_dir_name other_model ->
  Forall (fun x => SLASH ∉ stem x)
         (image_files_of w image_dir num_sample_images) ->
  SLASH ∉ image_stem ->
  tree_of o !! p = fs0 !! p.
Proof.
  intros o p Ht Ht' Hdiff Hplain Hs. subst o p.
  destruct (trivial_name_false _ Ht) as [Hn1 Hn2].
  destruct (trivial_name_false _ Ht') as [Hn1' Hn2'].
  rewrite (output_file_shape base_output_dir other_model image_stem) by done.
  destruct (decide (tree_of (run_ollama_ocr_integrated w model_name image_dir
                               base_output_dir num_sample_images fs0)
                      !! (Path_of base_output_dir
                          ++ [model_output_dir_name other_model;
                              image_stem ++ lit ".txt"])
                    = fs0 !! (Path_of base_output_dir
                              ++ [model_output_dir_name other_model;
                                  image_stem ++ lit ".txt"])))
    as [Heq|Hne]; [exact Heq|].
  exfalso.
  destruct (run_changed w image_dir base_output_dir num_sample_images
              model_name fs0 _ Hne) as [[Hlen _]|(x & Hx & Hp)].
  - rewrite model_output_path_length in Hlen by done.
    rewrite !length_app in Hlen. simpl in Hlen. lia.
  - rewrite Forall_forall in Hplain.
    rewrite (output_file_shape base_output_dir model_name (stem x)) in Hp;
      [|done|done|by apply Hplain].
    apply app_inv_head in Hp. injection Hp as Hd _. done.
Qed.

Lemma other_model_outputs_untouched_staged :
  let o := run_ollama_ocr_integrated stage_plain STAGE_MODEL STAGE_DIR STAGE_OUT
             3 stale_tree in
  model_output_dir_name STAGE_MODEL <> model_output_dir_name (lit "deepseek-ocr:latest")
  /\ tree_of o !! output_file (model_output_path STAGE_OUT (lit "deepseek-ocr:latest"))
                              (lit "r1")
     = stale_tree !! output_file (model_output_path STAGE_OUT (lit "deepseek-ocr:latest"))
                                 (lit "r1").
Proof.
  intros o.
  assert (Hd : model_output_dir_name STAGE_MODEL
               <> model_output_dir_name (lit "deepseek-ocr:latest"))
    by (vm_compute; discriminate).
  split; [exact Hd|].
  apply (other_model_outputs_untouched stage_plain STAGE_MODEL
           (lit "deepseek-ocr:latest") STAGE_DIR STAGE_OUT 3 stale_tree (lit "r1")).
  - reflexivity.
  - reflexivity.
  - exact Hd.
  - vm_compute. repeat constructor;
      (intros H; repeat (apply elem_of_cons in H as [H|H]; [discriminate H|]);
       by apply elem_of_nil in H).
  - vm_compute. intros H.
    repeat (apply elem_of_cons in H as [H|H]; [discriminate H|]).
    by apply elem_of_nil in H.
Defined.

(** X8.  For sample counts that are not negative, a larger count only
    adds images at the end: the images sampled with the smaller count
    are the first images sampled with the larger one, and whatever the
    count, also a negative one, the sampled images are the first of the
    image files. *)
Theorem sample_grows_with_count (w : World) (image_dir : str) (n n' : Z) :
  (0 <= n)%Z -> (n <= n')%Z ->
  match all_image_files w image_dir with
  | Ok files =>
    exists l l',
      sampled_image_files w image_dir n = Ok l
      /\ sampled_image_files w image_dir n' = Ok l'
      /\ l `prefix_of` l' /\ l' `prefix_of` files
      /\ forall k : Z, slice_to files k `prefix_of` files
  | Raise e =>
    sampled_image_files w image_dir n = Raise e
    /\ sampled_image_files w image_dir n' = Raise e
  end.
Proof.
  intros H0 Hle. unfold sampled_image_files.
  destruct (all_image_files w image_dir) as [files|e]; [|done].
  assert (Hpre : forall k : Z, slice_to files k `prefix_of` files).
  { intros k. unfold slice_to. destruct (0 <=? k)%Z; apply prefix_take. }
  exists (slice_to files n), (slice_to files n').
  split; [done|]. split; [done|]. split; [|split; [apply Hpre | exact Hpre]].
  unfold slice_to.
  destruct (Z.leb_spec 0 n) as [_|]; [|lia].
  destruct (Z.leb_spec 0 n') as [_|]; [|lia].
  exists (drop (Z.to_nat n) (take (Z.to_nat n') files)).
  rewrite <- (take_drop (Z.to_nat n) (take (Z.to_nat n') files)) at 1.
  f_equal. rewrite take_take. f_equal. lia.
Qed.

Lemma sample_grows_with_count_staged :
  (0 <= 1)%Z /\ (1 <= 2)%Z
  /\ exists l l',
       sampled_image_files stage_five STAGE_DIR 1 = Ok l
       /\ sampled_image_files stage_five STAGE_DIR 2 = Ok l'
       /\ l `prefix_of` l'.
Proof.
  split; [lia|]. split; [lia|].
  pose proof (sample_grows_with_count stage_five STAGE_DIR 1 2
                ltac:(lia) ltac:(lia)) as H.
  change (all_image_files stage_five STAGE_DIR)
    with (Ok (A := list Path)
            (map (fun s => [lit "imgs"; lit s])
                 ["1.png"; "2.png"; "3.png"; "4.png"; "5.png"]%string)) in H.
  destruct H as (l & l' & H1 & H2 & H3 & _).
  by exists l, l'.
Defined.

(** * More about the report *)

Section EntryHeaders.

Variable w : World.

Implicit Types (s m : str).








End EntryHeaders.



(** X11.  When the image directory cannot be listed, [main] does not get
    to the report: the first runner has made its directory, the listing
    raises, and the exception escapes [main] with nothing printed and no
    other change to the tree. *)
Theorem main_needs_the_image_directory (w : World) (fs0 fs1 fs2 : FS) (e : exn) :
  mkdir_parents fs0 (Path_of BASE_OUTPUT_DIRECTORY) = Ok fs1 ->
  mkdir_parents fs1 (model_output_path BASE_OUTPUT_DIRECTORY
                       (lit "yasserrmd/Nanonets-OCR-s:latest")) = Ok fs2 ->
  iterdir w (Path_of IMAGE_DIRECTORY) = Raise e ->
  main w fs0 = (fs2, [], Raise e).
Proof.
  intros H1 H2 He. unfold main. rewrite H1.
  unfold MODELS. cbn [run_models].
  assert (Hs : sampled_image_files w IMAGE_DIRECTORY NUM_SAMPLE_IMAGES = Raise e).
  { unfold sampled_image_files, all_image_files. by rewrite He. }
  by rewrite (run_listing_raises _ _ _ _ _ _ _ _ H2 Hs).
Qed.

Lemma main_needs_the_image_directory_staged :
  iterdir stage_plain (Path_of IMAGE_DIRECTORY) = Raise FileNotFoundError
  /\ result_of (main stage_plain ∅) = Raise FileNotFoundError
  /\ events_of (main stage_plain ∅) = [].
Proof.
  assert (He : iterdir stage_plain (Path_of IMAGE_DIRECTORY)
               = Raise FileNotFoundError) by reflexivity.
  split; [exact He|].
  rewrite (main_needs_the_image_directory stage_plain ∅
             (match mkdir_parents ∅ (Path_of BASE_OUTPUT_DIRECTORY) with
              | Ok t => t | Raise _ => ∅ end)
             (match mkdir_parents
                      (match mkdir_parents ∅ (Path_of BASE_OUTPUT_DIRECTORY) with
                       | Ok t => t | Raise _ => ∅ end)
                      (model_output_path BASE_OUTPUT_DIRECTORY
                         (lit "yasserrmd/Nanonets-OCR-s:latest")) with
              | Ok t => t | Raise _ => ∅ end)
             FileNotFoundError).
  - done.
  - vm_compute; reflexivity.
  - vm_compute; reflexivity.
  - exact He.
Defined.

Lemma main_report_has_every_section_staged :
  result_of (main stage_receipts ∅) = Ok tt
  /\ exists (fs_read : FS) (sample_images : list str),
       report_sample_images stage_receipts IMAGE_DIRECTORY NUM_SAMPLE_IMAGES
       = Ok sample_images
       /\ tree_of (main stage_receipts ∅) !! Path_of COMPARISON_REPORT_PATH
          = Some (File (concat
              ([TITLE; INTRO]
               ++ match sample_images with
                  | [] => [NO_SAMPLES]
                  | _ => flat_map (present_section stage_receipts fs_read
                                     BASE_OUTPUT_DIRECTORY sample_images) MODELS
                         ++ [SUMMARY_TITLE; SUMMARY_BODY]
                  end))).
Proof.
  assert (Hr : result_of (main stage_receipts ∅) = Ok tt)
    by (vm_compute; reflexivity).
  split; [exact Hr|].
  exact (main_report_has_every_section stage_receipts ∅ Hr).
Defined.

(** * From the runners to the report *)

(** Only the current directory and the roots are anchors. *)
Lemma anchor_long (p : Path) : (2 <= length p)%nat -> anchor p = false.
Proof.
  destruct p as [|a [|b r]]; simpl; try lia. intros _.
  destruct a as [|c a]; [done|].
  destruct c as [|pp]; [done|].
  do 6 (destruct pp as [pp|pp|]; try done).
Qed.

Section Composition.

Variable w : World.
Variables image_dir base_output_dir : str.
Variable num_sample_images : Z.

Implicit Types (m s : str) (p : Path).

Local Abbreviation run m :=
  (run_ollama_ocr_integrated w m image_dir base_output_dir num_sample_images).
Local Abbreviation dir_of m := (model_output_path base_output_dir m).
Local Abbreviation sampled := (image_files_of w image_dir num_sample_images).

(** A path deeper than the directory of the model changes only if it is
    the output file of a sampled image. *)
Lemma run_lookup_far m (fs0 : FS) p :
  (length (dir_of m) < length p)%nat ->
  (forall x, x ∈ sampled -> p <> output_file (dir_of m) (stem x)) ->
  tree_of (run m fs0) !! p = fs0 !! p.
Proof.
  intros Hlen Hno.
  destruct (decide (tree_of (run m fs0) !! p = fs0 !! p)) as [Heq|Hne]; [done|].
  exfalso.
  destruct (run_changed w image_dir base_output_dir num_sample_images m fs0 p Hne)
    as [[Hl _]|(x & Hx & Hp)]; [lia|].
  by apply (Hno x Hx).
Qed.

(** A directory found after a call was there before, or is on the way to
    the directory of the model. *)
Lemma run_dir_origin m (fs0 : FS) p :
  tree_of (run m fs0) !! p = Some Dir ->
  fs0 !! p = Some Dir \/ (length p <= length (dir_of m))%nat.
Proof.
  intros Hd.
  destruct (mkdir_parents fs0 (dir_of m)) as [fs1|e] eqn:Hm.
  2:{ rewrite (run_mkdir_raises _ _ _ _ _ _ _ Hm) in Hd. by left. }
  assert (H1 : fs1 !! p = Some Dir ->
               fs0 !! p = Some Dir \/ (length p <= length (dir_of m))%nat).
  { intros H. destruct (decide (fs1 !! p = fs0 !! p)) as [Heq|Hne].
    - left. by rewrite <- Heq.
    - right. by apply (mkdir_from_changed _ [] fs0 fs1 p Hm Hne). }
  destruct (sampled_image_files w image_dir num_sample_images) as [l|e] eqn:Hs.
  2:{ rewrite (run_listing_raises _ _ _ _ _ _ _ _ Hm Hs) in Hd. by apply H1. }
  destruct (run_spec w m image_dir base_output_dir num_sample_images
              fs0 fs1 l Hm Hs) as (_ & Hag & _).
  by apply H1, Hag.
Qed.

(** The output file of a model with a proper directory name and of an
    image with a plain stem. *)
Lemma output_file_plain m s :
  trivial_name (model_output_dir_name m) = false -> SLASH ∉ s ->
  output_file (dir_of m) s
  = Path_of base_output_dir ++ [model_output_dir_name m; s ++ lit ".txt"].
Proof.
  intros Ht Hs. destruct (trivial_name_false _ Ht).
  by apply output_file_shape.
Qed.

Lemma output_file_plain_inj m m' s s' :
  trivial_name (model_output_dir_name m) = false ->
  trivial_name (model_output_dir_name m') = false ->
  SLASH ∉ s -> SLASH ∉ s' ->
  output_file (dir_of m) s = output_file (dir_of m') s' ->
  model_output_dir_name m = model_output_dir_name m' /\ s = s'.
Proof.
  intros Ht Ht' Hs Hs' H.
  rewrite !output_file_plain in H by done.
  apply app_inv_head in H. injection H as H1 H2.
  split; [done|]. by apply app_inv_tail in H2.
Qed.

Lemma sampled_Ok (l : list Path) :
  sampled_image_files w image_dir num_sample_images = Ok l -> sampled = l.
Proof. intros H. unfold image_files_of. by rewrite H. Qed.

Section OneImage.

Variables (m : str) (l1 : list Path) (x : Path) (l2 : list Path) (text : str).

Hypothesis Hsampled :
  sampled_image_files w image_dir num_sample_images = Ok (l1 ++ x :: l2).
Hypothesis Hplain : Forall (fun y => SLASH ∉ stem y) (l1 ++ x :: l2).
Hypothesis Hlast : forall y, y ∈ l2 -> stem y <> stem x.
Hypothesis Hanswer : answer w m x = Ok text.
Hypothesis Hencodes : existsb is_surrogate text = false.
Hypothesis Hname : trivial_name (model_output_dir_name m) = false.

Local Abbreviation p := (output_file (dir_of m) (stem x)).

Lemma stem_x_plain : SLASH ∉ stem x.
Proof.
  rewrite Forall_forall in Hplain. apply Hplain.
  apply elem_of_app. right. by left.
Qed.

Lemma p_is_deep m' :
  trivial_name (model_output_dir_name m') = false ->
  (length (dir_of m') < length p)%nat.
Proof.
  intros Ht'. rewrite (output_file_plain m (stem x) Hname stem_x_plain).
  rewrite (model_output_path_length base_output_dir m' Ht').
  rewrite !length_app. simpl. lia.
Qed.

(** The run of the model itself saves the text. *)
Lemma run_saves (fs0 : FS) flag :
  fs0 !! p <> Some Dir ->
  result_of (run m fs0) = Ok flag ->
  tree_of (run m fs0) !! p = Some (File text).
Proof.
  intros Hnd Hr.
  destruct (run_returns_mkdir _ _ _ _ _ _ _ Hr) as [fs1 Hm].
  assert (Hsame : fs1 !! p = fs0 !! p).
  { destruct (decide (fs1 !! p = fs0 !! p)) as [Heq|Hne]; [done|].
    destruct (mkdir_from_changed _ [] fs0 fs1 p Hm Hne) as [Hl _].
    pose proof (p_is_deep m Hname). simpl in Hl. lia. }
  assert (Hopen : can_open fs1 p = true).
  { unfold can_open.
    assert (Ha : anchor p = false)
      by (apply anchor_long;
          rewrite (output_file_plain m (stem x) Hname stem_x_plain);
          rewrite length_app; simpl; lia).
    rewrite Ha. simpl.
    assert (Hpar : parent p = dir_of m).
    { unfold parent. rewrite Ha.
      rewrite (output_file_plain m (stem x) Hname stem_x_plain).
      rewrite (model_output_path_length base_output_dir m Hname).
      rewrite !length_app. simpl.
      replace (length (Path_of base_output_dir) + 2 - 1)%nat
        with (length (Path_of base_output_dir ++ [model_output_dir_name m]))
        by (rewrite length_app; simpl; lia).
      change [model_output_dir_name m; stem x ++ lit ".txt"]
        with ([model_output_dir_name m] ++ [stem x ++ lit ".txt"]).
      rewrite app_assoc. by rewrite take_app_length. }
    rewrite Hpar, (mkdir_parents_is_dir _ _ _ Hm), andb_true_r.
    rewrite Hsame. by destruct (fs0 !! p) as [[|?]|]. }
  assert (Hv : verdict w m (dir_of m) fs1 x = Saved p text).
  { unfold verdict. by rewrite Hanswer, Hopen, Hencodes. }
  apply (saved_entry_after_run w m image_dir base_output_dir num_sample_images
           fs0 fs1 l1 x l2 p text Hm Hsampled Hv).
  intros y Hy Heq.
  assert (Hy' : SLASH ∉ stem y).
  { rewrite Forall_forall in Hplain. apply Hplain.
    apply elem_of_app. right. by right. }
  destruct (output_file_plain_inj m m (stem y) (stem x) Hname Hname Hy'
              stem_x_plain Heq) as [_ Hst].
  by apply (Hlast y Hy).
Qed.

(** The run of a model with another directory name leaves it alone. *)
Lemma run_other_keeps m' (fs0 : FS) :
  trivial_name (model_output_dir_name m') = false ->
  model_output_dir_name m' <> model_output_dir_name m ->
  tree_of (run m' fs0) !! p = fs0 !! p.
Proof.
  intros Ht' Hne. apply run_lookup_far; [by apply p_is_deep|].
  intros y Hy Heq. rewrite (sampled_Ok _ Hsampled) in Hy.
  assert (Hy' : SLASH ∉ stem y)
    by (rewrite Forall_forall in Hplain; by apply Hplain).
  destruct (output_file_plain_inj m m' (stem x) (stem y) Hname Ht'
              stem_x_plain Hy' Heq) as [Hd _].
  by apply Hne.
Qed.

Lemma run_other_no_dir m' (fs0 : FS) :
  trivial_name (model_output_dir_name m') = false ->
  fs0 !! p <> Some Dir ->
  tree_of (run m' fs0) !! p <> Some Dir.
Proof.
  intros Ht' Hnd Hd.
  destruct (run_dir_origin m' fs0 p Hd) as [H|H]; [done|].
  pose proof (p_is_deep m' Ht'). lia.
Qed.

Lemma run_models_keep (models : list str) : forall (fs0 : FS) out0,
  Forall (fun m' => trivial_name (model_output_dir_name m') = false
                    /\ model_output_dir_name m' <> model_output_dir_name m)
         models ->
  tree_of (run_models w models image_dir base_output_dir num_sample_images
                      fs0 out0) !! p
  = fs0 !! p.
Proof.
  induction models as [|m' models IH]; intros fs0 out0 Hall; [done|].
  apply Forall_cons in Hall as [[Ht' Hne] Hall].
  pose proof (run_other_keeps m' fs0 Ht' Hne) as Hk.
  simpl.
  destruct (run m' fs0) as [[fs1 out1] [flag|e]] eqn:E;
    unfold tree_of in Hk; simpl in Hk.
  - by rewrite IH, Hk.
  - unfold tree_of. simpl. exact Hk.
Qed.

(** After the loop over models with pairwise different directory names,
    one of which is [m], the text is at its path. *)
Lemma run_models_save (models : list str) : forall (fs0 : FS) out0,
  NoDup (map model_output_dir_name models) ->
  Forall (fun m' => trivial_name (model_output_dir_name m') = false) models ->
  m ∈ models ->
  fs0 !! p <> Some Dir ->
  result_of (run_models w models image_dir base_output_dir num_sample_images
                        fs0 out0) = Ok tt ->
  tree_of (run_models w models image_dir base_output_dir num_sample_images
                      fs0 out0) !! p
  = Some (File text).
Proof.
  induction models as [|m' models IH]; intros fs0 out0 Hnd Hall Hin Hp Hr.
  { by apply elem_of_nil in Hin. }
  apply NoDup_cons in Hnd as [Hfresh Hnd].
  apply Forall_cons in Hall as [Ht' Hall].
  pose proof (run_saves fs0) as Hsave.
  pose proof (run_other_no_dir m' fs0 Ht' Hp) as Hno.
  simpl in Hr |- *.
  destruct (decide (m' = m)) as [->|Hmm].
  - destruct (run m fs0) as [[fs1 out1] [flag|e]] eqn:E;
      unfold tree_of, result_of in *; simpl in *; [|done].
    fold (tree_of (run_models w models image_dir base_output_dir
                              num_sample_images fs1 (out0 ++ out1))).
    rewrite run_models_keep; [by apply (Hsave flag)|].
    rewrite Forall_forall in Hall. apply Forall_forall. intros m' Hm'.
    split; [by apply Hall|]. intros Heq. apply Hfresh.
    rewrite <- Heq. apply list_elem_of_fmap. by exists m'.
  - apply elem_of_cons in Hin as [->|Hin]; [done|].
    destruct (run m' fs0) as [[fs1 out1] [flag|e]] eqn:E;
      unfold tree_of, result_of in *; simpl in *; [|done].
    by apply IH.
Qed.

End OneImage.

End Composition.

(** * [main], end to end *)

Section MainFacts.

Lemma open_w_lookup_ne (fs0 fs1 : FS) (p q : Path) :
  open_w fs0 p = Ok fs1 -> q <> p -> fs1 !! q = fs0 !! q.
Proof.
  intros Ho Hq. destruct (can_open fs0 p) eqn:Ec.
  - rewrite (open_w_ok _ _ Ec) in Ho. injection Ho as <-.
    by rewrite lookup_insert_ne.
  - destruct (open_w_raises _ _ Ec) as [e He]. by rewrite He in Ho.
Qed.

Lemma MODELS_names :
  NoDup (map model_output_dir_name MODELS)
  /\ Forall (fun m => trivial_name (model_output_dir_name m) = false) MODELS.
Proof.
  split.
  - apply (bool_decide_unpack _). vm_compute. exact I.
  - repeat constructor.
Qed.

(** The report's own sample list, from the runner's. *)
Lemma report_sample_images_of (w : World) (image_dir : str) (n : Z)
    (l : list Path) :
  sampled_image_files w image_dir n = Ok l ->
  report_sample_images w image_dir n = Ok (map stem l).
Proof.
  unfold report_sample_images, sampled_image_files, all_image_files.
  destruct (iterdir w (Path_of image_dir)) as [entries|e]; [|done].
  intros [= <-]. by rewrite collect_stems_filter, slice_to_map.
Qed.

End MainFacts.

(** X13.  End to end.  Let [main] return, let [m] be one of [MODELS] and
    [x] a sampled image with a plain name, the last sampled image with
    its stem, for which the endpoint answers [m] with a text that UTF-8
    encodes, and let no directory sit at the output path of [x].  Then at
    the end the output file of [x] under [m] holds the stripped text, and
    the report, which has one section per model with one entry per
    sampled image, was written from a tree in which the entry of [m] and
    [x] is the "empty" marker for an empty text and otherwise the label
    and the fenced text, carriage returns read back as line feeds. *)
Theorem main_report_embeds_saved_text (w : World) (fs0 : FS) (m : str)
    (l1 : list Path) (x : Path) (l2 : list Path) (text : str) :
  let out_dir := model_output_path BASE_OUTPUT_DIRECTORY m in
  let p := output_file out_dir (stem x) in
  result_of (main w fs0) = Ok tt ->
  m ∈ MODELS ->
  sampled_image_files w IMAGE_DIRECTORY NUM_SAMPLE_IMAGES = Ok (l1 ++ x :: l2) ->
  Forall (fun y => SLASH ∉ stem y) (l1 ++ x :: l2) ->
  (forall y, y ∈ l2 -> stem y <> stem x) ->
  answer w m x = Ok text ->
  existsb is_surrogate text = false ->
  fs0 !! p <> Some Dir ->
  tree_of (main w fs0) !! p = Some (File text)
  /\ exists fs_read : FS,
       tree_of (main w fs0) !! Path_of COMPARISON_REPORT_PATH
       = Some (File (concat
           ([TITLE; INTRO]
            ++ flat_map (present_section w fs_read BASE_OUTPUT_DIRECTORY
                           (map stem (l1 ++ x :: l2))) MODELS
            ++ [SUMMARY_TITLE; SUMMARY_BODY])))
       /\ image_entry w fs_read out_dir (stem x)
          = image_header (stem x)
            :: match universal_newlines text with
               | [] => [TEXT_EMPTY; REVIEW]
               | c :: t => [TEXT_LABEL; FENCE_OPEN; c :: t; FENCE_CLOSE; REVIEW]
               end.
Proof.
  intros out_dir p Hr Hin Hs Hplain Hlast Ha Henc Hnd. subst out_dir p.
  destruct MODELS_names as [Hnodup Hnames].
  assert (Hname : trivial_name (model_output_dir_name m) = false)
    by (rewrite Forall_forall in Hnames; by apply Hnames).
  assert (Hxs : SLASH ∉ stem x).
  { rewrite Forall_forall in Hplain. apply Hplain.
    apply elem_of_app. right. by left. }
  pose proof (output_file_plain BASE_OUTPUT_DIRECTORY m (stem x) Hname Hxs) as Hshape.
  assert (Hlen : length (output_file (model_output_path BASE_OUTPUT_DIRECTORY m)
                           (stem x)) = 4%nat) by (by rewrite Hshape).
  set (p := output_file (model_output_path BASE_OUTPUT_DIRECTORY m) (stem x)) in *.
  assert (Hrp : p <> Path_of COMPARISON_REPORT_PATH)
    by (intros Heq; by rewrite Heq in Hlen).
  assert (Hanchor : anchor p = false) by (by rewrite Hshape).
  unfold main in *.
  destruct (mkdir_parents fs0 (Path_of BASE_OUTPUT_DIRECTORY)) as [fsb|e] eqn:Hm;
    [|done].
  assert (Hb : fsb !! p <> Some Dir).
  { destruct (decide (fsb !! p = fs0 !! p)) as [Heq|Hne]; [by rewrite Heq|].
    destruct (mkdir_from_changed _ [] fs0 fsb p Hm Hne) as [Hl _].
    rewrite Hlen in Hl. simpl in Hl.
    change (length (Path_of BASE_OUTPUT_DIRECTORY)) with 2%nat in Hl. lia. }
  pose proof (run_models_save w IMAGE_DIRECTORY BASE_OUTPUT_DIRECTORY
                NUM_SAMPLE_IMAGES m l1 x l2 text Hs Hplain Hlast Ha Henc Hname
                MODELS fsb [] Hnodup Hnames Hin Hb) as Hsave.
  pose proof (run_models_dirs w IMAGE_DIRECTORY BASE_OUTPUT_DIRECTORY
                NUM_SAMPLE_IMAGES MODELS fsb []) as [_ Hd].
  destruct (run_models w MODELS IMAGE_DIRECTORY BASE_OUTPUT_DIRECTORY
                       NUM_SAMPLE_IMAGES fsb []) as [[fs2 out2] [[]|e]] eqn:Er;
    [|done].
  unfold tree_of, result_of in Hsave, Hd. cbn [fst snd] in Hsave, Hd.
  specialize (Hsave eq_refl). specialize (Hd eq_refl).
  unfold generate_comparison_report in *.
  destruct (open_w fs2 (Path_of COMPARISON_REPORT_PATH)) as [fs_read|e] eqn:Ho;
    [|done].
  assert (Hread : fs_read !! p = Some (File text))
    by (by rewrite (open_w_lookup_ne _ _ _ _ Ho Hrp)).
  assert (Hsec : forall samples,
    flat_map (model_section w fs_read BASE_OUTPUT_DIRECTORY samples) MODELS
    = flat_map (present_section w fs_read BASE_OUTPUT_DIRECTORY samples) MODELS).
  { intros samples. rewrite !flat_map_concat_map. f_equal. apply map_ext_in.
    intros m' Hin'. apply list_elem_of_In in Hin'.
    rewrite model_section_cases.
    by rewrite (is_dir_exists _ _ (open_w_keeps_dirs _ _ _ _ Ho (Hd m' Hin'))). }
  rewrite report_chunks_cases in *.
  rewrite (report_sample_images_of _ _ _ _ Hs) in *.
  destruct (map stem (l1 ++ x :: l2)) as [|s samples] eqn:Emap.
  { by destruct l1. }
  unfold tree_of, result_of in *. cbn [fst snd] in *.
  split.
  - by rewrite lookup_insert_ne.
  - exists fs_read. split.
    + by rewrite lookup_insert_eq, Hsec.
    + rewrite (image_entry_of_file w fs_read _ (stem x) text Hanchor Hread).
      rewrite strip_fix; [done|].
      apply universal_newlines_stripped. by apply (answer_stripped w m x).
Qed.

Lemma main_report_embeds_saved_text_staged :
  let out_dir := model_output_path BASE_OUTPUT_DIRECTORY (lit "deepseek-ocr:latest") in
  result_of (main stage_receipts ∅) = Ok tt
  /\ answer stage_receipts (lit "deepseek-ocr:latest")
            (Path_of IMAGE_DIRECTORY ++ [lit "r1.png"]) = Ok (lit "TOTAL 12.50")
  /\ tree_of (main stage_receipts ∅) !! output_file out_dir (lit "r1")
     = Some (File (lit "TOTAL 12.50")).
Proof.
  intros out_dir.
  assert (Hr : result_of (main stage_receipts ∅) = Ok tt)
    by (vm_compute; reflexivity).
  assert (Ha : answer stage_receipts (lit "deepseek-ocr:latest")
                 (Path_of IMAGE_DIRECTORY ++ [lit "r1.png"])
               = Ok (lit "TOTAL 12.50")) by (vm_compute; reflexivity).
  split; [exact Hr|]. split; [exact Ha|].
  refine (proj1 (main_report_embeds_saved_text stage_receipts ∅
                   (lit "deepseek-ocr:latest")
                   [] (Path_of IMAGE_DIRECTORY ++ [lit "r1.png"])
                   [Path_of IMAGE_DIRECTORY ++ [lit "r2.jpg"]]
                   (lit "TOTAL 12.50") Hr _ _ _ _ Ha _ _)).
  - unfold MODELS. rewrite !elem_of_cons. right; right; left; reflexivity.
  - vm_compute; reflexivity.
  - vm_compute. repeat constructor;
      (intros H; repeat (apply elem_of_cons in H as [H|H]; [discriminate H|]);
       by apply elem_of_nil in H).
  - intros y Hy. apply list_elem_of_singleton in Hy as ->.
    vm_compute. discriminate.
  - vm_compute; reflexivity.
  - vm_compute. discriminate.
Defined.

(** * What is sampled *)

Section NameFacts.

Lemma rfind_Some (c : char) (s : str) (i : nat) :
  rfind c s = Some i ->
  (i < length s)%nat /\ s !! i = Some c /\ c ∉ drop (S i) s.
Proof.
  revert i. induction s as [|d r IH]; intros i; simpl; [done|].
  destruct (rfind c r) as [j|] eqn:E.
  - intros [= <-]. destruct (IH j eq_refl) as (Hl & Hc & Hn).
    split; [lia|]. by split.
  - destruct (N.eqb_spec d c) as [->|_]; [|done]. intros [= <-].
    split; [lia|]. split; [done|]. simpl. rewrite drop_0.
    clear IH. induction r as [|d' r IH]; [by apply not_elem_of_nil|].
    simpl in E. destruct (rfind c r) as [j|]; [done|].
    destruct (N.eqb_spec d' c) as [->|Hne]; [done|].
    apply not_elem_of_cons. split; [done|]. by apply IH.
Qed.

(** [p.name == p.stem + p.suffix] *)
Lemma name_stem_suffix (p : Path) : name p = stem p ++ suffix p.
Proof.
  unfold stem, suffix. destruct (suffix_index (name p)) as [i|].
  - by rewrite take_drop.
  - by rewrite app_nil_r.
Qed.

(** A suffix is empty, or a dot and a last extension without dots, after
    a stem that is not empty. *)
Lemma suffix_cases (p : Path) :
  suffix p = []
  \/ exists e, suffix p = DOT :: e /\ e <> [] /\ (DOT ∉ e) /\ stem p <> [].
Proof.
  unfold suffix, stem, suffix_index.
  destruct (rfind DOT (name p)) as [i|] eqn:E; [|by left].
  destruct (rfind_Some _ _ _ E) as (Hl & Hc & Hn).
  case_bool_decide as Hi; [|by left]. right.
  exists (drop (S i) (name p)). split; [|split; [|split]].
  - by rewrite (drop_S _ _ _ Hc).
  - intros H0. apply (f_equal length) in H0. rewrite length_drop in H0.
    simpl in H0. lia.
  - done.
  - intros H0. apply (f_equal length) in H0. rewrite length_take in H0.
    simpl in H0. lia.
Qed.

Lemma filter_sublist {A} (f : A -> bool) (l : list A) :
  List.filter f l `sublist_of` l.
Proof.
  induction l as [|a l IH]; simpl; [done|].
  destruct (f a); by constructor.
Qed.

Lemma slice_to_sublist {A} (l : list A) (n : Z) : slice_to l n `sublist_of` l.
Proof. unfold slice_to. destruct (0 <=? n)%Z; apply sublist_take. Qed.

Lemma IMAGE_SUFFIXES_dotted :
  IMAGE_SUFFIXES = map (cons DOT) [lit "jpeg"; lit "jpg"; lit "png"].
Proof. vm_compute. reflexivity. Qed.

End NameFacts.

(** X14.  What a run samples.  The sampled images are entries of the
    image directory, in the order of the listing and each at most as
    often as listed; each is a regular file whose name is a stem that
    is not empty, a dot, and a last extension without dots that reads
    jpeg, jpg or png once upper-case ASCII letters are lowered.  So a
    file named ".png" or "scan." or "png" is never sampled, and the name
    of the output file, the stem plus ".txt", is the image name with its
    last extension replaced. *)
Theorem sampled_images_are_image_files (w : World) (image_dir : str)
    (num_sample_images : Z) (l : list Path) :
  sampled_image_files w image_dir num_sample_images = Ok l ->
  exists entries,
    iterdir w (Path_of image_dir) = Ok entries
    /\ l `sublist_of` entries
    /\ forall f, f ∈ l ->
         is_file w f = true
         /\ exists e, name f = stem f ++ DOT :: e
              /\ stem f <> []
              /\ (DOT ∉ e)
              /\ lower e ∈ [lit "jpeg"; lit "jpg"; lit "png"].
Proof.
  unfold sampled_image_files, all_image_files.
  destruct (iterdir w (Path_of image_dir)) as [entries|e]; [|done].
  intros [= <-]. exists entries. split; [done|]. split.
  - etrans; [apply slice_to_sublist|apply filter_sublist].
  - intros f Hf.
    apply (fun H => elem_of_sublist _ _ _ H (slice_to_sublist _ _)) in Hf.
    apply list_elem_of_In, filter_In in Hf as [_ Hf].
    unfold is_image in Hf. apply andb_true_iff in Hf as [Hfile Hsuf].
    split; [done|]. apply bool_decide_eq_true in Hsuf.
    rewrite IMAGE_SUFFIXES_dotted in Hsuf.
    apply list_elem_of_fmap in Hsuf as (y & Hy & Hin).
    destruct (suffix_cases f) as [H0|(e & He & Hne & Hdot & Hstem)].
    { by rewrite H0 in Hy. }
    exists e. split; [|split; [|split]]; try done.
    + by rewrite <- He, <- name_stem_suffix.
    + rewrite He in Hy. injection Hy as <-. done.
Qed.

Lemma sampled_images_are_image_files_staged :
  sampled_image_files stage_plain STAGE_DIR 3
  = Ok [Path_of STAGE_DIR ++ [lit "r1.png"]; Path_of STAGE_DIR ++ [lit "r2.JPG"];
        Path_of STAGE_DIR ++ [lit "r3.jpeg"]]
  /\ exists entries,
       iterdir stage_plain (Path_of STAGE_DIR) = Ok entries
       /\ [Path_of STAGE_DIR ++ [lit "r1.png"]; Path_of STAGE_DIR ++ [lit "r2.JPG"];
           Path_of STAGE_DIR ++ [lit "r3.jpeg"]] `sublist_of` entries
       /\ forall f,
            f ∈ [Path_of STAGE_DIR ++ [lit "r1.png"];
                 Path_of STAGE_DIR ++ [lit "r2.JPG"];
                 Path_of STAGE_DIR ++ [lit "r3.jpeg"]] ->
            is_file stage_plain f = true
            /\ exists e, name f = stem f ++ DOT :: e
                 /\ stem f <> []
                 /\ (DOT ∉ e)
                 /\ lower e ∈ [lit "jpeg"; lit "jpg"; lit "png"].
Proof.
  assert (H : sampled_image_files stage_plain STAGE_DIR 3
              = Ok [Path_of STAGE_DIR ++ [lit "r1.png"];
                    Path_of STAGE_DIR ++ [lit "r2.JPG"];
                    Path_of STAGE_DIR ++ [lit "r3.jpeg"]])
    by (vm_compute; reflexivity).
  split; [exact H|].
  exact (sampled_images_are_image_files stage_plain STAGE_DIR 3 _ H).
Defined.

